(** * crm-server: task time tracking, task lifecycle and the two
      employee-of-the-month engines

    A shallow embedding of the Task model (schema hooks, instance methods
    and the static [calculateEmployeeOfTheMonth]) and of the Performance
    model ([calculateOverallScore], the grade table and the static
    [calculateEmployeeOfTheMonth]), followed by the properties proved
    about them.

    Conventions of the embedding.
    - A JavaScript [Date] is its epoch value in milliseconds, a [Z];
      [null] dates are [None].
    - Millisecond totals and counters are [Z].  Numbers that the code
      divides ([progress.percentage], [estimatedHours], the rates of a
      Performance record) are exact rationals [Q]: IEEE rounding error of
      the double arithmetic is not part of the model.
    - An ObjectId is the string [toString()] gives for it.
    - A Mongoose document is a record; the dirty flag of [status] and
      [isNew] are fields of that record, and [save] runs the two
      [pre('save')] hooks in the order they are registered.  Schema
      validators and [populate] are left out: documents are taken to be
      valid and every referenced user to exist. *)

From Stdlib Require Import ZArith QArith Qround List String Bool Lia.
From Stdlib Require Import Permutation Sorted Lqa.
Import ListNotations.
Open Scope Z_scope.

(* ------------------------------------------------------------------ *)
(** ** JavaScript primitives used by the models *)

Module JS.

(** [Math.round]: the nearest integer, halves going up. *)
Definition Math_round (x : Q) : Z := Qfloor (x + (1 # 2))%Q.

(** [Math.floor]. *)
Definition Math_floor (x : Q) : Z := Qfloor x.

(** [a < b] and [a > b] on Numbers. *)
Definition ltb (a b : Q) : bool := negb (Qle_bool b a).
Definition gtb (a b : Q) : bool := ltb b a.

(** Truthiness of a nullable Number: [null] and [0] are falsy. *)
Definition truthy (n : option Q) : bool :=
  match n with
  | None => false
  | Some q => negb (Qeq_bool q 0)
  end.

(** [ToNumber] of a nullable Date: [null] converts to [0]. *)
Definition toNumber (d : option Z) : Z :=
  match d with
  | None => 0
  | Some v => v
  end.

(** [a || b] on a nullable value. *)
Definition orElse {A : Type} (a : option A) (b : A) : A :=
  match a with
  | Some v => v
  | None => b
  end.

(** [Array.prototype.find]. *)
Definition find {A : Type} (p : A -> bool) (l : list A) : option A :=
  List.find p l.

(** The element [find] returns is an object of the array: a later
    assignment to its fields changes the first element satisfying [p]. *)
Fixpoint update_first {A : Type} (p : A -> bool) (f : A -> A) (l : list A)
  : list A :=
  match l with
  | [] => []
  | x :: r => if p x then f x :: r else x :: update_first p f r
  end.

(** A plain object used as a dictionary whose keys are never integer
    indices (here: 24-digit ObjectId strings): own properties in insertion
    order.  [has] is the truthiness test [o[k]] on object values, [modify]
    is an assignment through the reference [o[k]], [values] is
    [Object.values]. *)
Definition object (V : Type) : Type := list (string * V).

Fixpoint get {V : Type} (k : string) (o : object V) : option V :=
  match o with
  | [] => None
  | (k', v) :: r => if String.eqb k' k then Some v else get k r
  end.

Definition has {V : Type} (k : string) (o : object V) : bool :=
  match get k o with
  | Some _ => true
  | None => false
  end.

Definition define {V : Type} (k : string) (v : V) (o : object V)
  : object V := o ++ [(k, v)].

Fixpoint modify {V : Type} (k : string) (f : V -> V) (o : object V)
  : object V :=
  match o with
  | [] => []
  | (k', v) :: r =>
      if String.eqb k' k then (k', f v) :: r else (k', v) :: modify k f r
  end.

Definition values {V : Type} (o : object V) : list V := map snd o.

End JS.

Definition ObjectId := string.
Bind Scope string_scope with ObjectId.

Definition oid_eqb (a b : ObjectId) : bool := String.eqb a b.

(* ------------------------------------------------------------------ *)
(** ** config/constants.js *)

Inductive TASK_STATUS : Type :=
| PENDING
| IN_PROGRESS
| COMPLETED
| CANCELLED
| OVERDUE.

Definition status_eqb (a b : TASK_STATUS) : bool :=
  match a, b with
  | PENDING, PENDING
  | IN_PROGRESS, IN_PROGRESS
  | COMPLETED, COMPLETED
  | CANCELLED, CANCELLED
  | OVERDUE, OVERDUE => true
  | _, _ => false
  end.

(* ------------------------------------------------------------------ *)
(** ** The Task schema *)

Inductive Role : Type := primary | collaborator | reviewer.

Inductive Phase : Type :=
| planning
| development
| testing
| review
| deployment
| completed.

(** An element of [assignedTo]. *)
Module Assignee.
Record t : Type := mk
  { user : ObjectId;
    assignedAt : Z;
    role : Role }.
End Assignee.

(** An element of [timeTracking[i].sessions]. *)
Module Session.
Record t : Type := mk
  { startTime : option Z;
    endTime : option Z;
    duration : Z;
    notes : string }.
End Session.

(** An element of [timeTracking]: the ledger entry of one user. *)
Module Tracking.
Record t : Type := mk
  { user : ObjectId;
    totalTimeSpent : Z;
    sessions : list Session.t;
    isActive : bool;
    currentSessionStart : option Z;
    lastActivity : option Z }.

Definition of_user (userId : ObjectId) (tt : t) : bool :=
  oid_eqb (user tt) userId.
End Tracking.

(** The [progress] sub-document (blockers and milestones play no part in
    the operations modelled here). *)
Module Progress.
Record t : Type := mk
  { currentPhase : Phase;
    percentage : Q }.
End Progress.

(** An element of [statusHistory]. *)
Module StatusChange.
Record t : Type := mk
  { status : TASK_STATUS;
    changedBy : ObjectId;
    changedAt : Z;
    reason : string }.
End StatusChange.

Module Task.

(** The fields of the schema that the hooks, the methods and the scoring
    read or write, the two transient properties the first hook reads
    ([modifiedBy], [statusChangeReason]) and the document state Mongoose
    keeps ([isNew], and whether [status] was assigned a new value since
    the document was loaded or saved). *)
Record t : Type := mk
  { assignedTo : list Assignee.t;
    assignedBy : ObjectId;
    status : TASK_STATUS;
    progress : Progress.t;
    dueDate : option Z;
    startDate : option Z;
    completedDate : option Z;
    estimatedHours : option Q;
    timeTracking : list Tracking.t;
    statusHistory : list StatusChange.t;
    createdAt : Z;
    modifiedBy : option ObjectId;
    statusChangeReason : option string;
    isNew : bool;
    statusModified : bool }.

(** *** Field assignments *)

Definition set_assignedTo (v : list Assignee.t) (d : t) : t :=
  mk v (assignedBy d) (status d) (progress d) (dueDate d) (startDate d)
     (completedDate d) (estimatedHours d) (timeTracking d)
     (statusHistory d) (createdAt d) (modifiedBy d)
     (statusChangeReason d) (isNew d) (statusModified d).

(** [this.status = v]: the path is marked modified when the value
    changes. *)
Definition set_status (v : TASK_STATUS) (d : t) : t :=
  mk (assignedTo d) (assignedBy d) v (progress d) (dueDate d)
     (startDate d) (completedDate d) (estimatedHours d) (timeTracking d)
     (statusHistory d) (createdAt d) (modifiedBy d)
     (statusChangeReason d) (isNew d)
     (statusModified d || negb (status_eqb (status d) v)).

Definition set_progress (v : Progress.t) (d : t) : t :=
  mk (assignedTo d) (assignedBy d) (status d) v (dueDate d) (startDate d)
     (completedDate d) (estimatedHours d) (timeTracking d)
     (statusHistory d) (createdAt d) (modifiedBy d)
     (statusChangeReason d) (isNew d) (statusModified d).

Definition set_startDate (v : option Z) (d : t) : t :=
  mk (assignedTo d) (assignedBy d) (status d) (progress d) (dueDate d) v
     (completedDate d) (estimatedHours d) (timeTracking d)
     (statusHistory d) (createdAt d) (modifiedBy d)
     (statusChangeReason d) (isNew d) (statusModified d).

Definition set_completedDate (v : option Z) (d : t) : t :=
  mk (assignedTo d) (assignedBy d) (status d) (progress d) (dueDate d)
     (startDate d) v (estimatedHours d) (timeTracking d)
     (statusHistory d) (createdAt d) (modifiedBy d)
     (statusChangeReason d) (isNew d) (statusModified d).

Definition set_timeTracking (v : list Tracking.t) (d : t) : t :=
  mk (assignedTo d) (assignedBy d) (status d) (progress d) (dueDate d)
     (startDate d) (completedDate d) (estimatedHours d) v
     (statusHistory d) (createdAt d) (modifiedBy d)
     (statusChangeReason d) (isNew d) (statusModified d).

Definition set_statusHistory (v : list StatusChange.t) (d : t) : t :=
  mk (assignedTo d) (assignedBy d) (status d) (progress d) (dueDate d)
     (startDate d) (completedDate d) (estimatedHours d) (timeTracking d)
     v (createdAt d) (modifiedBy d)
     (statusChangeReason d) (isNew d) (statusModified d).

Definition set_modifiedBy (v : option ObjectId) (d : t) : t :=
  mk (assignedTo d) (assignedBy d) (status d) (progress d) (dueDate d)
     (startDate d) (completedDate d) (estimatedHours d) (timeTracking d)
     (statusHistory d) (createdAt d) v
     (statusChangeReason d) (isNew d) (statusModified d).

(** What Mongoose does once the hooks have run and the document is
    written: nothing is new or modified any more. *)
Definition persisted (d : t) : t :=
  mk (assignedTo d) (assignedBy d) (status d) (progress d) (dueDate d)
     (startDate d) (completedDate d) (estimatedHours d) (timeTracking d)
     (statusHistory d) (createdAt d) (modifiedBy d)
     (statusChangeReason d) false false.

(** *** Errors thrown by the instance methods *)

Inductive Error : Type :=
| NotAssigned
| AlreadyActive
| NoTrackingEntry
| NoActiveSession
| AlreadyAssigned
| LastAssignee.


(** *** Methods run on [this]: a state and exception monad

    A method reads and assigns the fields of the document it is called
    on, and either returns or throws; what it assigned before a throw
    stays assigned in memory. *)

Inductive Result (A : Type) : Type :=
| Ok (a : A)
| Throw (e : Error).
Arguments Ok {A} a.
Arguments Throw {A} e.

Definition M (A : Type) : Type := t -> Result A * t.

Definition ret {A : Type} (a : A) : M A := fun d => (Ok a, d).

Definition bind {A B : Type} (m : M A) (f : A -> M B) : M B :=
  fun d =>
    match m d with
    | (Ok a, d') => f a d'
    | (Throw e, d') => (Throw e, d')
    end.

Definition throw {A : Type} (e : Error) : M A := fun d => (Throw e, d).

Definition this : M t := fun d => (Ok d, d).

Definition assign (f : t -> t) : M unit := fun d => (Ok tt, f d).

End Task.

Declare Scope task_scope.
Delimit Scope task_scope with task.
Notation "x <- m ;; k" := (Task.bind m (fun x => k))
  (at level 61, m at next level, right associativity) : task_scope.
Notation "m ;; k" := (Task.bind m (fun _ => k))
  (at level 61, right associativity) : task_scope.

(** The per-employee record [calculateEmployeeOfTheMonth] accumulates.
    [user] is the populated user, kept as its id.  The last three fields do
    not exist until the ranking pass assigns them. *)
Module Score.
Record t : Type := mk
  { user : ObjectId;
    totalScore : Z;
    tasksCompleted : Z;
    tasksInProgress : Z;
    totalTimeSpent : Z;
    onTimeCompletions : Z;
    overdueCompletions : Z;
    averageProgress : Q;
    progressCount : Z;
    completionRate : option Z;
    onTimeRate : option Z;
    totalHoursWorked : option Q }.

Definition init (u : ObjectId) : t :=
  mk u 0 0 0 0 0 0 0%Q 0 None None None.

(** [score.totalScore += n] *)
Definition add_totalScore (n : Z) (s : t) : t :=
  mk (user s) (totalScore s + n) (tasksCompleted s) (tasksInProgress s)
     (totalTimeSpent s) (onTimeCompletions s) (overdueCompletions s)
     (averageProgress s) (progressCount s) (completionRate s)
     (onTimeRate s) (totalHoursWorked s).

(** [score.tasksCompleted++] *)
Definition incr_tasksCompleted (s : t) : t :=
  mk (user s) (totalScore s) (tasksCompleted s + 1) (tasksInProgress s)
     (totalTimeSpent s) (onTimeCompletions s) (overdueCompletions s)
     (averageProgress s) (progressCount s) (completionRate s)
     (onTimeRate s) (totalHoursWorked s).

(** [score.tasksInProgress++] *)
Definition incr_tasksInProgress (s : t) : t :=
  mk (user s) (totalScore s) (tasksCompleted s) (tasksInProgress s + 1)
     (totalTimeSpent s) (onTimeCompletions s) (overdueCompletions s)
     (averageProgress s) (progressCount s) (completionRate s)
     (onTimeRate s) (totalHoursWorked s).

(** [score.totalTimeSpent += n] *)
Definition add_totalTimeSpent (n : Z) (s : t) : t :=
  mk (user s) (totalScore s) (tasksCompleted s) (tasksInProgress s)
     (totalTimeSpent s + n) (onTimeCompletions s) (overdueCompletions s)
     (averageProgress s) (progressCount s) (completionRate s)
     (onTimeRate s) (totalHoursWorked s).

(** [score.onTimeCompletions++] *)
Definition incr_onTimeCompletions (s : t) : t :=
  mk (user s) (totalScore s) (tasksCompleted s) (tasksInProgress s)
     (totalTimeSpent s) (onTimeCompletions s + 1) (overdueCompletions s)
     (averageProgress s) (progressCount s) (completionRate s)
     (onTimeRate s) (totalHoursWorked s).

(** [score.overdueCompletions++] *)
Definition incr_overdueCompletions (s : t) : t :=
  mk (user s) (totalScore s) (tasksCompleted s) (tasksInProgress s)
     (totalTimeSpent s) (onTimeCompletions s) (overdueCompletions s + 1)
     (averageProgress s) (progressCount s) (completionRate s)
     (onTimeRate s) (totalHoursWorked s).

(** [score.averageProgress += p] *)
Definition add_averageProgress (p : Q) (s : t) : t :=
  mk (user s) (totalScore s) (tasksCompleted s) (tasksInProgress s)
     (totalTimeSpent s) (onTimeCompletions s) (overdueCompletions s)
     (averageProgress s + p)%Q (progressCount s) (completionRate s)
     (onTimeRate s) (totalHoursWorked s).

(** [score.progressCount++] *)
Definition incr_progressCount (s : t) : t :=
  mk (user s) (totalScore s) (tasksCompleted s) (tasksInProgress s)
     (totalTimeSpent s) (onTimeCompletions s) (overdueCompletions s)
     (averageProgress s) (progressCount s + 1) (completionRate s)
     (onTimeRate s) (totalHoursWorked s).
End Score.

(** What [calculateEmployeeOfTheMonth] returns; [null] is [None]. *)
Module Rankings.
Record t : Type := mk
  { employeeOfTheMonth : option Score.t;
    topPerformers : list Score.t;
    allRankings : list Score.t;
    periodStart : Z;
    periodEnd : Z }.
End Rankings.

(* ------------------------------------------------------------------ *)
(** ** taskSchema: hooks and instance methods

    Every method takes the clock reading [now] of the request that runs
    it: each [new Date()] of one call evaluates to it. *)

Module taskSchema.
Import Task.
Local Open Scope task_scope.

(** [this.timeTracking.isActive], as the first hook reads it.  The schema
    declares [timeTracking] as an array of ledger entries; the array
    itself has no property [isActive], so the read gives [undefined]. *)
Definition timeTracking_isActive (a : list Tracking.t) : bool := false.

(** [this.stopTimeTracking()], as the first hook calls it: without a
    [userId], and without awaiting the promise.  The body throws while
    it looks the entry up ([userId.toString()] of [undefined], or the
    missing-entry error on an empty array), before any assignment, and
    the rejected promise is dropped. *)
Definition stopTimeTracking_detached (d : Task.t) : Task.t := d.

(** [a || b] on strings: the empty string is falsy. *)
Definition reason_or (a : option string) (b : string) : string :=
  match a with
  | Some EmptyString => b
  | Some s => s
  | None => b
  end.

Definition is_null {A : Type} (a : option A) : bool :=
  match a with
  | None => true
  | Some _ => false
  end.

(** First [pre('save')] hook: status history, completion date, start
    date. *)
Definition pre_save_statusHistory (now : Z) (d : Task.t) : Task.t :=
  if statusModified d && negb (isNew d) then
    let d1 :=
      set_statusHistory
        (statusHistory d ++
           [StatusChange.mk (status d)
              (JS.orElse (modifiedBy d) (assignedBy d))
              now
              (reason_or (statusChangeReason d) "Status updated")]) d in
    let d2 :=
      if status_eqb (status d1) COMPLETED then
        let d' := set_completedDate (Some now) d1 in
        if timeTracking_isActive (timeTracking d')
        then stopTimeTracking_detached d'
        else d'
      else d1 in
    if status_eqb (status d2) IN_PROGRESS && is_null (startDate d2)
    then set_startDate (Some now) d2
    else d2
  else d.

(** Second [pre('save')] hook: overdue tasks. *)
Definition pre_save_overdue (now : Z) (d : Task.t) : Task.t :=
  match dueDate d with
  | Some due =>
      if (due <? now)
         && negb (status_eqb (status d) COMPLETED)
         && negb (status_eqb (status d) CANCELLED)
         && negb (status_eqb (status d) OVERDUE)
      then set_status OVERDUE d
      else d
  | None => d
  end.

(** [this.save()]: both hooks in registration order, then the write. *)
Definition saved (now : Z) (d : Task.t) : Task.t :=
  persisted (pre_save_overdue now (pre_save_statusHistory now d)).

Definition save (now : Z) : M Task.t :=
  assign (saved now) ;; this.

Definition isAssigned (userId : ObjectId) (d : Task.t) : bool :=
  existsb (fun a => oid_eqb (Assignee.user a) userId) (assignedTo d).

Definition fresh_tracking (userId : ObjectId) (now : Z) : Tracking.t :=
  Tracking.mk userId 0 [] false None (Some now).

(** The three assignments of [startTimeTracking] to the entry. *)
Definition activate (now : Z) (tt : Tracking.t) : Tracking.t :=
  Tracking.mk (Tracking.user tt) (Tracking.totalTimeSpent tt)
    (Tracking.sessions tt) true (Some now) (Some now).

(** The entry pushed for a user who has none is the object the following
    assignments go to, as for a plain array. *)
Definition startTimeTracking (userId : ObjectId) (now : Z) : M Task.t :=
  d <- this ;;
  if negb (isAssigned userId d) then throw NotAssigned else
  (match JS.find (Tracking.of_user userId) (timeTracking d) with
   | Some _ => ret tt
   | None =>
       assign (set_timeTracking
                 (timeTracking d ++ [fresh_tracking userId now]))
   end) ;;
  d <- this ;;
  match JS.find (Tracking.of_user userId) (timeTracking d) with
  | None => throw NoTrackingEntry
  | Some userTimeTracking =>
      if Tracking.isActive userTimeTracking then throw AlreadyActive else
      assign (fun d =>
        set_timeTracking
          (JS.update_first (Tracking.of_user userId) (activate now)
             (timeTracking d)) d) ;;
      d <- this ;;
      (if status_eqb (status d) PENDING
       then assign (set_status IN_PROGRESS)
       else ret tt) ;;
      save now
  end.

(** The session [stopTimeTracking] appends, and its assignments to the
    entry. *)
Definition closing_session (notes : string) (now : Z) (tt : Tracking.t)
  : Session.t :=
  let endTime := now in
  let startTime := Tracking.currentSessionStart tt in
  let duration := endTime - JS.toNumber startTime in
  Session.mk startTime (Some endTime) duration notes.

Definition close (notes : string) (now : Z) (tt : Tracking.t)
  : Tracking.t :=
  let s := closing_session notes now tt in
  Tracking.mk (Tracking.user tt)
    (Tracking.totalTimeSpent tt + Session.duration s)
    (Tracking.sessions tt ++ [s])
    false None (Some now).

Definition stopTimeTracking (userId : ObjectId) (notes : string) (now : Z)
  : M Task.t :=
  d <- this ;;
  match JS.find (Tracking.of_user userId) (timeTracking d) with
  | None => throw NoTrackingEntry
  | Some userTimeTracking =>
      if negb (Tracking.isActive userTimeTracking)
      then throw NoActiveSession
      else
        assign (fun d =>
          set_timeTracking
            (JS.update_first (Tracking.of_user userId) (close notes now)
               (timeTracking d)) d) ;;
        save now
  end.

(** [for (const tt of this.timeTracking) body]: the array iterator reads
    the element at each index when it gets there, so it sees what the
    earlier iterations assigned. *)
Fixpoint for_of_timeTracking (indices : list nat)
  (body : Tracking.t -> M unit) : M unit :=
  match indices with
  | [] => ret tt
  | i :: rest =>
      d <- this ;;
      match nth_error (timeTracking d) i with
      | None => ret tt
      | Some entry => body entry ;; for_of_timeTracking rest body
      end
  end.

Definition markAsCompleted (userId : ObjectId) (now : Z) : M Task.t :=
  assign (set_status COMPLETED) ;;
  assign (set_completedDate (Some now)) ;;
  assign (set_modifiedBy (Some userId)) ;;
  assign (fun d =>
    set_progress
      (Progress.mk completed (Progress.percentage (progress d))) d) ;;
  assign (fun d =>
    set_progress
      (Progress.mk (Progress.currentPhase (progress d)) 100%Q) d) ;;
  d <- this ;;
  for_of_timeTracking (seq 0 (List.length (timeTracking d)))
    (fun entry =>
       if Tracking.isActive entry
       then stopTimeTracking (Tracking.user entry) "Task completed" now ;;
            ret tt
       else ret tt) ;;
  save now.

Definition addAssignee (userId : ObjectId) (role : Role) (now : Z)
  : M Task.t :=
  d <- this ;;
  match JS.find (fun a => oid_eqb (Assignee.user a) userId)
          (assignedTo d) with
  | Some _ => throw AlreadyAssigned
  | None =>
      assign (fun d =>
        set_assignedTo (assignedTo d ++ [Assignee.mk userId now role]) d) ;;
      assign (fun d =>
        set_timeTracking
          (timeTracking d ++ [fresh_tracking userId now]) d) ;;
      save now
  end.

Definition removeAssignee (userId : ObjectId) (now : Z) : M Task.t :=
  d <- this ;;
  if (Z.of_nat (List.length (assignedTo d)) <=? 1) then throw LastAssignee else
  (match JS.find (Tracking.of_user userId) (timeTracking d) with
   | Some userTimeTracking =>
       if Tracking.isActive userTimeTracking
       then stopTimeTracking userId "Removed from task" now ;; ret tt
       else ret tt
   | None => ret tt
   end) ;;
  assign (fun d =>
    set_assignedTo
      (filter (fun a => negb (oid_eqb (Assignee.user a) userId))
         (assignedTo d)) d) ;;
  assign (fun d =>
    set_timeTracking
      (filter (fun tt => negb (Tracking.of_user userId tt))
         (timeTracking d)) d) ;;
  save now.

(** *** Static method [calculateEmployeeOfTheMonth] *)

(** The query: tasks created in the window whose status is completed or
    in progress, in collection order. *)
Definition in_period (startDate endDate : Z) (task : Task.t) : bool :=
  (startDate <=? createdAt task) && (createdAt task <=? endDate)
  && (status_eqb (status task) COMPLETED
      || status_eqb (status task) IN_PROGRESS).

Definition ms_per_hour : Q := inject_Z (1000 * 60 * 60).

(** [task.completedDate && task.dueDate &&
     task.completedDate <= task.dueDate] *)
Definition completed_on_time (task : Task.t) : bool :=
  match completedDate task, dueDate task with
  | Some c, Some due => c <=? due
  | _, _ => false
  end.

(** The body of the inner loop, on the record [score] of the assignee. *)
Definition score_task (task : Task.t) (userId : ObjectId)
  (score : Score.t) : Score.t :=
  let userTimeTracking :=
    JS.find (Tracking.of_user userId) (timeTracking task) in
  let score :=
    match userTimeTracking with
    | Some ledger =>
        Score.add_totalTimeSpent (Tracking.totalTimeSpent ledger) score
    | None => score
    end in
  let score :=
    if status_eqb (status task) COMPLETED then
      let score := Score.incr_tasksCompleted score in
      let score := Score.add_totalScore 50 score in
      let score :=
        if completed_on_time task
        then Score.add_totalScore 30 (Score.incr_onTimeCompletions score)
        else Score.add_totalScore 10 (Score.incr_overdueCompletions score)
      in
      match estimatedHours task, userTimeTracking with
      | Some hours, Some ledger =>
          if JS.truthy (Some hours) then
            let actualHours :=
              (inject_Z (Tracking.totalTimeSpent ledger) / ms_per_hour)%Q in
            if JS.ltb actualHours hours
            then Score.add_totalScore 20 score
            else score
          else score
      | _, _ => score
      end
    else if status_eqb (status task) IN_PROGRESS then
      Score.add_totalScore 10 (Score.incr_tasksInProgress score)
    else score in
  let percentage := Progress.percentage (progress task) in
  if JS.gtb percentage 0 then
    let score := Score.add_averageProgress percentage score in
    let score := Score.incr_progressCount score in
    Score.add_totalScore (JS.Math_round (percentage / 10)) score
  else score.

(** One iteration of the inner loop: create the record of the assignee
    if it is missing, then update it in place. *)
Definition score_assignee (task : Task.t)
  (employeeScores : JS.object Score.t) (assignee : Assignee.t)
  : JS.object Score.t :=
  let userId := Assignee.user assignee in
  let employeeScores :=
    if JS.has userId employeeScores then employeeScores
    else JS.define userId (Score.init userId) employeeScores in
  JS.modify userId (score_task task userId) employeeScores.

Definition accumulate (tasks : list Task.t) : JS.object Score.t :=
  fold_left
    (fun employeeScores task =>
       fold_left (score_assignee task) (assignedTo task) employeeScores)
    tasks [].

(** The callback of [map] in the ranking pass. *)
Definition finalize (score : Score.t) : Score.t :=
  let averageProgress :=
    if 0 <? Score.progressCount score
    then inject_Z (JS.Math_round
                     (Score.averageProgress score
                      / inject_Z (Score.progressCount score)))
    else 0%Q in
  let totalTasks := Score.tasksCompleted score + Score.tasksInProgress score in
  let completionRate :=
    if 0 <? totalTasks
    then JS.Math_round
           (inject_Z (Score.tasksCompleted score) / inject_Z totalTasks
            * 100)
    else 0 in
  let onTimeRate :=
    if 0 <? Score.tasksCompleted score
    then JS.Math_round
           (inject_Z (Score.onTimeCompletions score)
            / inject_Z (Score.tasksCompleted score) * 100)
    else 0 in
  let totalHoursWorked :=
    (inject_Z (JS.Math_round
                 (inject_Z (Score.totalTimeSpent score) / ms_per_hour * 10))
     / 10)%Q in
  Score.mk (Score.user score) (Score.totalScore score)
    (Score.tasksCompleted score) (Score.tasksInProgress score)
    (Score.totalTimeSpent score) (Score.onTimeCompletions score)
    (Score.overdueCompletions score) averageProgress
    (Score.progressCount score) (Some completionRate) (Some onTimeRate)
    (Some totalHoursWorked).

(** [.sort((a, b) => b.totalScore - a.totalScore)].  [Array.prototype.sort]
    is stable, and a stable sort by a consistent comparator has one
    result, whatever algorithm the engine runs; insertion sort computes
    it.  [a] stays before [b] when [b.totalScore - a.totalScore <= 0]. *)
Fixpoint insert_by_totalScore (a : Score.t) (l : list Score.t)
  : list Score.t :=
  match l with
  | [] => [a]
  | b :: r =>
      if Score.totalScore b - Score.totalScore a <=? 0
      then a :: b :: r
      else b :: insert_by_totalScore a r
  end.

Fixpoint sort_by_totalScore (l : list Score.t) : list Score.t :=
  match l with
  | [] => []
  | a :: r => insert_by_totalScore a (sort_by_totalScore r)
  end.

Definition calculateEmployeeOfTheMonth (collection : list Task.t)
  (startDate endDate : Z) : Rankings.t :=
  let tasks := filter (in_period startDate endDate) collection in
  let employeeScores := accumulate tasks in
  let rankings :=
    sort_by_totalScore
      (filter (fun score => 0 <? Score.tasksCompleted score)
         (map finalize (JS.values employeeScores))) in
  Rankings.mk (hd_error rankings) (firstn 5 rankings) rankings
    startDate endDate.

End taskSchema.

(* ------------------------------------------------------------------ *)
(** ** The Performance schema *)

Inductive Period : Type := weekly | monthly | quarterly | yearly.

Definition period_eqb (a b : Period) : bool :=
  match a, b with
  | weekly, weekly
  | monthly, monthly
  | quarterly, quarterly
  | yearly, yearly => true
  | _, _ => false
  end.

(** 'A+', 'A', 'B+', 'B', 'C+', 'C', 'D', 'F' *)
Inductive Grade : Type :=
| A_plus
| A
| B_plus
| B
| C_plus
| C
| D
| F.

Module Performance.

(** The fields the score, the grade and the monthly selection read or
    write. *)
Record t : Type := mk
  { employee : ObjectId;
    period : Period;
    startDate : Z;
    endDate : Z;
    tasksCompleted : Z;
    tasksAssigned : Z;
    tasksOverdue : Z;
    attendanceDays : Z;
    totalWorkingDays : Z;
    salesCalls : Z;
    salesConversions : Z;
    overallScore : Z;
    grade : Grade;
    isActive : bool }.

(** [this.overallScore = v; this.grade = g] *)
Definition set_score_grade (v : Z) (g : Grade) (p : t) : t :=
  mk (employee p) (period p) (startDate p) (endDate p)
     (tasksCompleted p) (tasksAssigned p) (tasksOverdue p)
     (attendanceDays p) (totalWorkingDays p) (salesCalls p)
     (salesConversions p) v g (isActive p).

End Performance.

Module performanceSchema.
Import Performance.
Local Open Scope Q_scope.

(** *** Virtuals *)

Definition taskCompletionRate (p : Performance.t) : Q :=
  if (0 <? tasksAssigned p)%Z
  then inject_Z (tasksCompleted p) / inject_Z (tasksAssigned p) * 100
  else 0.

Definition attendanceRate (p : Performance.t) : Q :=
  if (0 <? totalWorkingDays p)%Z
  then inject_Z (attendanceDays p) / inject_Z (totalWorkingDays p) * 100
  else 0.

Definition salesConversionRate (p : Performance.t) : Q :=
  if (0 <? salesCalls p)%Z
  then inject_Z (salesConversions p) / inject_Z (salesCalls p) * 100
  else 0.

(** *** [calculateOverallScore] *)

(** The local [onTimeRate] of the method. *)
Definition onTimeRate (p : Performance.t) : Q :=
  if (0 <? tasksAssigned p)%Z
  then inject_Z (tasksAssigned p - tasksOverdue p)
       / inject_Z (tasksAssigned p) * 100
  else 100.

(** The locals [score] and [weightSum] when the method reaches
    [Math.round]. *)
Definition weighted (p : Performance.t) : Q * Q :=
  let score := 0 in
  let weightSum := 0 in
  let taskScore := taskCompletionRate p in
  let score := score + taskScore * (3 # 10) in
  let weightSum := weightSum + (3 # 10) in
  let attendanceScore := attendanceRate p in
  let score := score + attendanceScore * (25 # 100) in
  let weightSum := weightSum + (25 # 100) in
  let score := score + onTimeRate p * (2 # 10) in
  let weightSum := weightSum + (2 # 10) in
  if (0 <? salesCalls p)%Z then
    let salesScore := salesConversionRate p in
    (score + salesScore * (25 # 100), weightSum + (25 # 100))
  else (score, weightSum).

(** The [if]/[else if] chain on [this.overallScore]. *)
Definition grade_of (overallScore : Z) : Grade :=
  if (95 <=? overallScore)%Z then A_plus
  else if (90 <=? overallScore)%Z then A
  else if (85 <=? overallScore)%Z then B_plus
  else if (80 <=? overallScore)%Z then B
  else if (75 <=? overallScore)%Z then C_plus
  else if (70 <=? overallScore)%Z then C
  else if (60 <=? overallScore)%Z then D
  else F.

Definition calculateOverallScore (p : Performance.t) : Performance.t :=
  let score := fst (weighted p) in
  let overallScore := JS.Math_round score in
  set_score_grade overallScore (grade_of overallScore) p.

(** *** Static method [calculateEmployeeOfTheMonth] *)

Section Statics.

(** [new Date(year, monthIndex, day)] as an epoch value; the calendar
    arithmetic belongs to the JavaScript runtime. *)
Variable Date : Z -> Z -> Z -> Z.

(** The query: active monthly records whose window lies between the
    two dates, in collection order. *)
Definition in_month (startDate endDate : Z) (p : Performance.t) : bool :=
  period_eqb (period p) monthly
  && (startDate <=? Performance.startDate p)%Z
  && (Performance.endDate p <=? endDate)%Z
  && Performance.isActive p.

(** The callback of [reduce]. *)
Definition better (best current : Performance.t) : Performance.t :=
  if (overallScore best <? overallScore current)%Z
  then current
  else best.

Definition calculateEmployeeOfTheMonth (collection : list Performance.t)
  (month year : Z) : option Performance.t :=
  let startDate := Date year (month - 1)%Z 1%Z in
  let endDate := Date year month 0%Z in
  let performances := filter (in_month startDate endDate) collection in
  match performances with
  | [] => None
  | first :: rest => Some (fold_left better rest first)
  end.

End Statics.

End performanceSchema.

(* ------------------------------------------------------------------ *)
(** ** PerformanceController *)

(** The collections a request handler can query. *)
Record Database : Type := mkDatabase
  { tasks : list Task.t;
    performances : list Performance.t }.

Module PerformanceController.

Inductive Response : Type :=
| BAD_REQUEST
| NOT_FOUND
| OK (employeeOfTheMonth : Performance.t).

(** [!month || !year] on the two body fields: a missing field and [0]
    are falsy. *)
Definition missing (v : option Z) : bool :=
  match v with
  | None => true
  | Some n => n =? 0
  end.

Section Handler.

Variable Date : Z -> Z -> Z -> Z.

(** POST /api/performance/employee-of-month.  The notification sent to
    the winner and the final [populate] do not change the answer. *)
Definition calculateEmployeeOfTheMonth (db : Database)
  (month year : option Z) : Response :=
  if missing month || missing year then BAD_REQUEST else
  match
    performanceSchema.calculateEmployeeOfTheMonth Date (performances db)
      (JS.toNumber month) (JS.toNumber year)
  with
  | None => NOT_FOUND
  | Some employeeOfTheMonth => OK employeeOfTheMonth
  end.

End Handler.

End PerformanceController.

(* ------------------------------------------------------------------ *)
(** ** Requests against a stored task *)

Module Requests.
Import Task.

(** The two time-tracking calls a client can make. *)
Inductive Call : Type :=
| Start (userId : ObjectId) (now : Z)
| Stop (userId : ObjectId) (notes : string) (now : Z).

Definition method (c : Call) : M Task.t :=
  match c with
  | Start userId now => taskSchema.startTimeTracking userId now
  | Stop userId notes now => taskSchema.stopTimeTracking userId notes now
  end.



(** The document after one [save] at each of the given clock readings. *)
Definition saves (nows : list Z) (d : Task.t) : Task.t :=
  fold_left (fun d now => taskSchema.saved now d) nows d.



(** The ledger [startTimeTracking] works on once the entry of the user is
    known to exist. *)
Definition with_entry (userId : ObjectId) (now : Z) (l : list Tracking.t)
  : list Tracking.t :=
  match JS.find (Tracking.of_user userId) l with
  | Some _ => l
  | None => l ++ [taskSchema.fresh_tracking userId now]
  end.

(** The two filters of [removeAssignee]. *)
Definition not_user (userId : ObjectId) (a : Assignee.t) : bool :=
  negb (oid_eqb (Assignee.user a) userId).

Definition not_ledger_of (userId : ObjectId) (tt : Tracking.t) : bool :=
  negb (Tracking.of_user userId tt).


(** An explicit status update: the handler assigns [status] on the loaded
    document and saves it. *)
Definition update_status (v : TASK_STATUS) (now : Z) (d : Task.t) : Task.t :=
  taskSchema.saved now (Task.set_status v d).

End Requests.

(* ------------------------------------------------------------------ *)
(** ** The scoring rules, as the specification words them *)

Module ScoringRules.
Import Task.




(** "floor(percentage / 10) additional points" when the percentage is
    positive. *)
Definition floor_bonus (task : Task.t) : Z :=
  JS.Math_floor (Progress.percentage (progress task) / 10).

(** The task with its progress percentage put back to zero. *)
Definition without_progress (task : Task.t) : Task.t :=
  set_progress (Progress.mk (Progress.currentPhase (progress task)) 0%Q) task.







(** "sorted by totalScore descending": no entry is followed, anywhere
    later in the list, by one with a higher score. *)
Definition by_totalScore_desc (a b : Score.t) : Prop :=
  Score.totalScore b <= Score.totalScore a.

(** "employees with tasksCompleted > 0" *)
Definition completed_some (score : Score.t) : bool :=
  0 <? Score.tasksCompleted score.


End ScoringRules.

(* ------------------------------------------------------------------ *)
(** ** Concrete tasks and records used as examples *)

Module Scenarios.



(** A pending task that was due at 1000. *)
Definition late_task : Task.t :=
  Task.mk [Assignee.mk "u1"%string 0 primary] "boss"%string PENDING
    (Progress.mk planning 0%Q) (Some 1000) None None None
    [] [] 0 None None false false.

(** A completed task that was due at 1000. *)
Definition done_task : Task.t :=
  Task.mk [Assignee.mk "u1"%string 0 primary] "boss"%string COMPLETED
    (Progress.mk completed 100%Q) (Some 1000) (Some 10) (Some 900) None
    [] [] 0 None None false false.

(** A task shared by two users; the second one has a session running
    since 500. *)
Definition shared_task : Task.t :=
  Task.mk
    [Assignee.mk "u1"%string 0 primary; Assignee.mk "u2"%string 0 collaborator]
    "boss"%string IN_PROGRESS
    (Progress.mk development (40 # 1)) (Some 100000) (Some 400) None None
    [Tracking.mk "u1"%string 0 [] false None (Some 0);
     Tracking.mk "u2"%string 0 [] true (Some 500) (Some 500)]
    [] 0 None None false false.


(** Employee E's single task: due 2024-01-10, completed 2024-01-09,
    estimated at five hours, four hours on E's ledger, no progress
    recorded.  Dates are UTC midnights. *)
Definition january_task : Task.t :=
  Task.mk [Assignee.mk "E"%string 1704153600000 primary] "boss"%string
    COMPLETED (Progress.mk planning 0%Q)
    (Some 1704844800000) (Some 1704240000000) (Some 1704758400000)
    (Some (5 # 1))
    [Tracking.mk "E"%string 14400000
       [Session.mk (Some 1704240000000) (Some 1704254400000) 14400000
          "work"%string]
       false None (Some 1704254400000)]
    [] 1704153600000 None None false false.

Definition january_1 : Z := 1704067200000.
Definition january_31 : Z := 1706745599000.

(** A task in progress at five percent, worked on by [u1]. *)
Definition five_percent_task : Task.t :=
  Task.mk [Assignee.mk "u1"%string 0 primary] "boss"%string IN_PROGRESS
    (Progress.mk planning (5 # 1)) (Some 100000) (Some 400) None None
    [] [] 0 None None false false.

(** Performance records.  All three have every assigned task completed
    and none overdue, and full attendance. *)
Definition record_with_sales (conversions calls : Z) : Performance.t :=
  Performance.mk "E"%string monthly january_1 january_31
    1 1 0 20 20 calls conversions 0 C true.

(** No sales calls at all. *)
Definition no_sales_record : Performance.t := record_with_sales 0 0.







End Scenarios.

(* ------------------------------------------------------------------ *)
(** ** More JavaScript primitives *)

Module JSMath.

(** [Math.min] and [Math.max] on two Numbers. *)
Definition Math_min (a b : Q) : Q := if Qle_bool a b then a else b.
Definition Math_max (a b : Q) : Q := if Qle_bool a b then b else a.

(** [Math.ceil] of a quotient of two integers, the divisor positive. *)
Definition Math_ceil_div (n d : Z) : Z := - ((- n) / d).


(** [Array.prototype.map] with the index passed to the callback. *)
Fixpoint map_index {A B : Type} (f : A -> nat -> B) (index : nat)
  (l : list A) : list B :=
  match l with
  | [] => []
  | x :: r => f x index :: map_index f (S index) r
  end.

End JSMath.

Definition role_eqb (a b : Role) : bool :=
  match a, b with
  | primary, primary
  | collaborator, collaborator
  | reviewer, reviewer => true
  | _, _ => false
  end.

(** The value of a status in [TASK_STATUS]. *)
Definition status_name (s : TASK_STATUS) : string :=
  match s with
  | PENDING => "pending"
  | IN_PROGRESS => "in_progress"
  | COMPLETED => "completed"
  | CANCELLED => "cancelled"
  | OVERDUE => "overdue"
  end.

(* ------------------------------------------------------------------ *)
(** ** taskSchema: virtuals, [updateProgress] and the query statics *)

Module taskVirtuals.
Import Task.

(** [isOverdue]; [now] is the clock reading of [new Date()]. *)
Definition isOverdue (now : Z) (d : Task.t) : bool :=
  if status_eqb (status d) COMPLETED || status_eqb (status d) CANCELLED
  then false
  else JS.toNumber (dueDate d) <? now.

(** [daysUntilDue]: [Math.ceil(diffTime / (1000 * 60 * 60 * 24))]. *)
Definition daysUntilDue (now : Z) (d : Task.t) : Z :=
  let due := JS.toNumber (dueDate d) in
  let diffTime := due - now in
  JSMath.Math_ceil_div diffTime (1000 * 60 * 60 * 24).


(** [primaryAssignee]; [null] is [None]. *)
Definition primaryAssignee (d : Task.t) : option ObjectId :=
  match JS.find (fun a => role_eqb (Assignee.role a) primary)
          (assignedTo d) with
  | Some a => Some (Assignee.user a)
  | None =>
      match assignedTo d with
      | first :: _ => Some (Assignee.user first)
      | [] => None
      end
  end.

(** [activeTimeTrackers] *)
Definition activeTimeTrackers (d : Task.t) : list Tracking.t :=
  filter Tracking.isActive (timeTracking d).

End taskVirtuals.

Module taskMethods.
Import Task.
Local Open Scope task_scope.

(** [updateProgress(percentage, phase, userId)]; a phase that is not given
    is [None]. *)
Definition updateProgress (percentage : Q) (phase : option Phase)
  (userId : ObjectId) (now : Z) : M Task.t :=
  assign (fun d =>
    set_progress
      (Progress.mk (Progress.currentPhase (progress d))
         (JSMath.Math_max 0 (JSMath.Math_min 100 percentage))) d) ;;
  (match phase with
   | Some phase =>
       assign (fun d =>
         set_progress
           (Progress.mk phase (Progress.percentage (progress d))) d)
   | None => ret tt
   end) ;;
  assign (set_modifiedBy (Some userId)) ;;
  taskSchema.save now.

End taskMethods.

(** One value of the object [getTaskStats] builds. *)
Module StatusStats.
Record t : Type := mk
  { count : Z;
    totalHours : Q }.
End StatusStats.

(** What [getProjectProgress] returns. *)
Module ProjectProgress.
Record t : Type := mk
  { totalTasks : Z;
    completedTasks : Z;
    inProgressTasks : Z;
    pendingTasks : Z;
    overdueTasks : Z;
    averageProgress : Z;
    totalTimeSpent : Q;
    activeTimeTrackers : Z }.
End ProjectProgress.

Module taskStatics.
Import Task.

(** [findOverdueTasks]: due before [now], neither completed nor
    cancelled.  A query on a date matches only documents that have one. *)
Definition findOverdueTasks (collection : list Task.t) (now : Z)
  : list Task.t :=
  filter
    (fun d =>
       match dueDate d with
       | Some due =>
           (due <? now)
           && negb (status_eqb (status d) COMPLETED
                    || status_eqb (status d) CANCELLED)
       | None => false
       end)
    collection.

(** [findActivelyTrackedTasks]: some ledger entry is active. *)
Definition findActivelyTrackedTasks (collection : list Task.t)
  : list Task.t :=
  filter (fun d => existsb Tracking.isActive (timeTracking d)) collection.

(** The body of the loop of [getTaskStats]. *)
Definition count_task (userId : ObjectId) (stats : JS.object StatusStats.t)
  (task : Task.t) : JS.object StatusStats.t :=
  let userTimeTracking :=
    JS.find (Tracking.of_user userId) (timeTracking task) in
  let totalTime :=
    match userTimeTracking with
    | Some ledger => Tracking.totalTimeSpent ledger
    | None => 0
    end in
  let key := status_name (status task) in
  let stats :=
    if JS.has key stats then stats
    else JS.define key (StatusStats.mk 0 0%Q) stats in
  JS.modify key
    (fun entry =>
       StatusStats.mk (StatusStats.count entry + 1)
         (StatusStats.totalHours entry
          + inject_Z (JS.Math_round
                        (inject_Z totalTime / taskSchema.ms_per_hour * 100))
            / 100)%Q)
    stats.

(** [getTaskStats(userId)] over the tasks the user is assigned to. *)
Definition getTaskStats (collection : list Task.t) (userId : ObjectId)
  : JS.object StatusStats.t :=
  let tasks := filter (taskSchema.isAssigned userId) collection in
  fold_left (count_task userId) tasks [].

(** [getProjectProgress]: [tasks] are the tasks the query found and
    [now] is the clock reading of the [isOverdue] virtual.  The count of
    unresolved blockers is left out, as the blockers are. *)
Definition getProjectProgress (tasks : list Task.t) (now : Z)
  : ProjectProgress.t :=
  let count (p : Task.t -> bool) := Z.of_nat (List.length (filter p tasks)) in
  let totalTasks := Z.of_nat (List.length tasks) in
  let averageProgress :=
    if 0 <? totalTasks
    then JS.Math_round
           (fold_left
              (fun sum t => (sum + Progress.percentage (progress t))%Q)
              tasks 0%Q
            / inject_Z totalTasks)
    else 0 in
  let totalTimeSpent :=
    fold_left
      (fun total task =>
         total
         + fold_left (fun sum tt => sum + Tracking.totalTimeSpent tt)
             (timeTracking task) 0)
      tasks 0 in
  let activeTimeTrackers :=
    fold_left
      (fun total task =>
         total
         + Z.of_nat (List.length (filter Tracking.isActive (timeTracking task))))
      tasks 0 in
  ProjectProgress.mk totalTasks
    (count (fun t => status_eqb (status t) COMPLETED))
    (count (fun t => status_eqb (status t) IN_PROGRESS))
    (count (fun t => status_eqb (status t) PENDING))
    (count (taskVirtuals.isOverdue now))
    averageProgress
    (inject_Z
       (JS.Math_round
          (inject_Z totalTimeSpent / taskSchema.ms_per_hour * 100))
     / 100)%Q
    activeTimeTrackers.

(** The count recorded under a key, [0] when the key is missing. *)
Definition count_of (key : string) (stats : JS.object StatusStats.t) : Z :=
  match JS.get key stats with
  | Some entry => StatusStats.count entry
  | None => 0
  end.

End taskStatics.

(* ------------------------------------------------------------------ *)
(** ** Every request against a stored task *)

Module Lifecycle.
Import Task.

Inductive Call : Type :=
| StartTimeTracking (userId : ObjectId) (now : Z)
| StopTimeTracking (userId : ObjectId) (notes : string) (now : Z)
| MarkAsCompleted (userId : ObjectId) (now : Z)
| AddAssignee (userId : ObjectId) (role : Role) (now : Z)
| RemoveAssignee (userId : ObjectId) (now : Z)
| UpdateProgress (percentage : Q) (phase : option Phase)
    (userId : ObjectId) (now : Z).

Definition method (c : Call) : M Task.t :=
  match c with
  | StartTimeTracking userId now => taskSchema.startTimeTracking userId now
  | StopTimeTracking userId notes now =>
      taskSchema.stopTimeTracking userId notes now
  | MarkAsCompleted userId now => taskSchema.markAsCompleted userId now
  | AddAssignee userId role now => taskSchema.addAssignee userId role now
  | RemoveAssignee userId now => taskSchema.removeAssignee userId now
  | UpdateProgress percentage phase userId now =>
      taskMethods.updateProgress percentage phase userId now
  end.

(** The document a handler holds when the method has returned or
    thrown. *)
Definition after (d : Task.t) (c : Call) : Task.t := snd (method c d).

Definition after_all (cs : list Call) (d : Task.t) : Task.t :=
  fold_left after cs d.

Definition roster (d : Task.t) : list ObjectId :=
  map Assignee.user (assignedTo d).

Definition ledger_users (d : Task.t) : list ObjectId :=
  map Tracking.user (timeTracking d).

(** A task as the handlers build it: at least one assignee, nobody
    assigned twice, one ledger entry per user at most, and ledger entries
    for assignees only. *)
Definition well_formed (d : Task.t) : Prop :=
  assignedTo d <> []
  /\ NoDup (roster d)
  /\ NoDup (ledger_users d)
  /\ incl (ledger_users d) (roster d).

End Lifecycle.

(* ------------------------------------------------------------------ *)
(** ** TaskController: the handlers around the instance methods *)

(** [USER_ROLES] *)
Inductive USER_ROLES : Type :=
| ADMIN
| PROJECT_MANAGER
| EMPLOYEE.

Definition user_role_eqb (a b : USER_ROLES) : bool :=
  match a, b with
  | ADMIN, ADMIN
  | PROJECT_MANAGER, PROJECT_MANAGER
  | EMPLOYEE, EMPLOYEE => true
  | _, _ => false
  end.

(** [HTTP_STATUS] *)
Module HTTP_STATUS.
Definition OK : Z := 200.
Definition CREATED : Z := 201.
Definition BAD_REQUEST : Z := 400.
Definition FORBIDDEN : Z := 403.
Definition NOT_FOUND : Z := 404.
Definition INTERNAL_SERVER_ERROR : Z := 500.
End HTTP_STATUS.

Module TaskController.
Import Task.

(** The status code of the response and, on success, the task sent in its
    body.  [found] is what [Task.findById] gave; [me] is [req.user._id].
    Notification and mail failures are caught and logged by the handlers
    and do not change the response. *)
Definition Response : Type := (Z * option Task.t)%type.




(** The assignee objects [createTask] builds: the first id is the primary
    assignee, the others are collaborators. *)
Definition new_assignees (assignedTo : list ObjectId) (now : Z)
  : list Assignee.t :=
  JSMath.map_index
    (fun userId index =>
       Assignee.mk userId now
         (match index with O => primary | S _ => collaborator end))
    O assignedTo.

(** [new Task(taskData)] with the defaults of the schema filled in. *)
Definition new_task (assignedTo : list ObjectId) (me : ObjectId)
  (dueDate : Z) (startDate : option Z) (estimatedHours : option Q)
  (now : Z) : Task.t :=
  Task.mk (new_assignees assignedTo now) me PENDING
    (Progress.mk planning 0%Q) (Some dueDate) startDate None
    estimatedHours [] [] now None None true false.

(** The [min: 0] validator of [estimatedHours], run by [save]. *)
Definition estimate_valid (estimatedHours : option Q) : bool :=
  match estimatedHours with
  | Some hours => Qle_bool 0 hours
  | None => true
  end.

(** POST /api/tasks.  [activeUsers] are the ids of the users that are
    active; the title, the description and the dates of the request are
    taken to pass their validators. *)
Definition createTask (activeUsers : list ObjectId)
  (assignedTo : list ObjectId) (me : ObjectId) (dueDate : Z)
  (startDate : option Z) (estimatedHours : option Q) (now : Z)
  : Response :=
  match assignedTo with
  | [] => (HTTP_STATUS.BAD_REQUEST, None)
  | _ :: _ =>
      let assignedUsers :=
        filter (fun u => existsb (oid_eqb u) assignedTo) activeUsers in
      if negb (Nat.eqb (List.length assignedUsers) (List.length assignedTo))
      then (HTTP_STATUS.BAD_REQUEST, None)
      else if negb (estimate_valid estimatedHours)
      then (HTTP_STATUS.BAD_REQUEST, None)
      else
        (HTTP_STATUS.CREATED,
         Some (taskSchema.saved now
                 (new_task assignedTo me dueDate startDate estimatedHours
                    now)))
  end.

(** May the user change the roster?  The handlers answer 403 when
    [req.user.role !== ADMIN && req.user.role !== PROJECT_MANAGER &&
     task.assignedBy.toString() !== req.user._id.toString()]. *)
Definition roster_forbidden (role : USER_ROLES) (me : ObjectId)
  (task : Task.t) : bool :=
  negb (user_role_eqb role ADMIN)
  && negb (user_role_eqb role PROJECT_MANAGER)
  && negb (oid_eqb (assignedBy task) me).

(** POST /api/tasks/:id/assignees.  A request without a role gets
    'collaborator'.  The error of the method is caught and answered
    with 500. *)
Definition addAssignee (found : option Task.t) (role : USER_ROLES)
  (me userId : ObjectId) (assigneeRole : option Role) (now : Z)
  : Response :=
  match found with
  | None => (HTTP_STATUS.NOT_FOUND, None)
  | Some task =>
      if roster_forbidden role me task
      then (HTTP_STATUS.FORBIDDEN, None)
      else
        match taskSchema.addAssignee userId
                (JS.orElse assigneeRole collaborator) now task with
        | (Ok _, task) => (HTTP_STATUS.OK, Some task)
        | (Throw _, _) => (HTTP_STATUS.INTERNAL_SERVER_ERROR, None)
        end
  end.

(** DELETE /api/tasks/:id/assignees *)
Definition removeAssignee (found : option Task.t) (role : USER_ROLES)
  (me userId : ObjectId) (now : Z) : Response :=
  match found with
  | None => (HTTP_STATUS.NOT_FOUND, None)
  | Some task =>
      if roster_forbidden role me task
      then (HTTP_STATUS.FORBIDDEN, None)
      else
        match taskSchema.removeAssignee userId now task with
        | (Ok _, task) => (HTTP_STATUS.OK, Some task)
        | (Throw _, _) => (HTTP_STATUS.INTERNAL_SERVER_ERROR, None)
        end
  end.

(** PUT /api/tasks/:id/progress; the percentage of the body is a
    Number. *)
Definition updateProgress (found : option Task.t) (role : USER_ROLES)
  (me : ObjectId) (percentage : Q) (phase : option Phase) (now : Z)
  : Response :=
  match found with
  | None => (HTTP_STATUS.NOT_FOUND, None)
  | Some task =>
      let isAssigned := taskSchema.isAssigned me task in
      if negb isAssigned && user_role_eqb role EMPLOYEE
      then (HTTP_STATUS.FORBIDDEN, None)
      else
        match taskMethods.updateProgress percentage phase me now task with
        | (Ok _, task) => (HTTP_STATUS.OK, Some task)
        | (Throw _, _) => (HTTP_STATUS.INTERNAL_SERVER_ERROR, None)
        end
  end.

End TaskController.

(* ------------------------------------------------------------------ *)
(** ** The SalesCall schema *)

Inductive CallStatus : Type :=
| call_scheduled
| call_in_progress
| call_completed
| call_missed
| call_cancelled
| call_no_answer
| call_busy
| call_wrong_number.

Inductive Outcome : Type :=
| interested
| not_interested
| callback_requested
| meeting_scheduled
| proposal_sent
| deal_closed
| qualified
| disqualified
| no_answer
| wrong_person
| voicemail_left
| gatekeeper_blocked.

Definition outcome_eqb (a b : Outcome) : bool :=
  match a, b with
  | interested, interested
  | not_interested, not_interested
  | callback_requested, callback_requested
  | meeting_scheduled, meeting_scheduled
  | proposal_sent, proposal_sent
  | deal_closed, deal_closed
  | qualified, qualified
  | disqualified, disqualified
  | no_answer, no_answer
  | wrong_person, wrong_person
  | voicemail_left, voicemail_left
  | gatekeeper_blocked, gatekeeper_blocked => true
  | _, _ => false
  end.

Inductive DealStatus : Type := deal_is_closed | deal_in_progress | deal_open.

Module SalesCall.

(** The fields the hook, the methods and the statistics read or write. *)
Record t : Type := mk
  { salesRep : ObjectId;
    status : CallStatus;
    scheduledDate : Z;
    duration : Z;
    outcome : option Outcome;
    outcomeDetails : string;
    followUpRequired : bool;
    followUpDate : option Z;
    followUpNotes : string;
    dealValue : Q;
    dealClosed : bool;
    dealClosedDate : option Z }.

End SalesCall.

Module salesCallSchema.
Import SalesCall.

Definition outcome_is (c : SalesCall.t) (o : Outcome) : bool :=
  match outcome c with
  | Some o' => outcome_eqb o' o
  | None => false
  end.

(** Virtual [dealStatus] *)
Definition dealStatus (c : SalesCall.t) : DealStatus :=
  if dealClosed c then deal_is_closed
  else if outcome_is c interested || outcome_is c meeting_scheduled
          || outcome_is c proposal_sent
  then deal_in_progress
  else deal_open.

(** Virtual [isSuccessful] *)
Definition isSuccessful (c : SalesCall.t) : bool :=
  let successfulOutcomes :=
    [interested; meeting_scheduled; proposal_sent; deal_closed; qualified] in
  existsb (outcome_is c) successfulOutcomes.

(** The [pre('save')] hook, and [save]. *)
Definition pre_save (now : Z) (c : SalesCall.t) : SalesCall.t :=
  let c :=
    if outcome_is c callback_requested || outcome_is c interested
    then mk (salesRep c) (status c) (scheduledDate c) (duration c)
           (outcome c) (outcomeDetails c) true (followUpDate c)
           (followUpNotes c) (dealValue c) (dealClosed c)
           (dealClosedDate c)
    else c in
  if outcome_is c deal_closed
  then mk (salesRep c) (status c) (scheduledDate c) (duration c)
         (outcome c) (outcomeDetails c) (followUpRequired c)
         (followUpDate c) (followUpNotes c) (dealValue c) true
         (Some (JS.orElse (dealClosedDate c) now))
  else c.

Definition saved (now : Z) (c : SalesCall.t) : SalesCall.t := pre_save now c.

End salesCallSchema.

(** What [getSalesRepStats] returns. *)
Module SalesRepStats.
Record t : Type := mk
  { totalCalls : Z;
    completedCalls : Z;
    successfulCalls : Z;
    totalDuration : Z;
    dealsClosed : Z;
    totalDealValue : Q;
    avgCallDuration : Z;
    conversionRate : Z }.
End SalesRepStats.

Module salesCallStatics.
Import SalesCall.

Definition count {A : Type} (p : A -> bool) (l : list A) : Z :=
  Z.of_nat (List.length (filter p l)).

Definition is_completed (c : SalesCall.t) : bool :=
  match status c with
  | call_completed => true
  | _ => false
  end.

(** [getSalesRepStats(salesRepId, startDate, endDate)] *)
Definition getSalesRepStats (collection : list SalesCall.t)
  (salesRepId : ObjectId) (startDate endDate : Z) : SalesRepStats.t :=
  let calls :=
    filter
      (fun c =>
         oid_eqb (salesRep c) salesRepId
         && (startDate <=? scheduledDate c) && (scheduledDate c <=? endDate))
      collection in
  let totalCalls := Z.of_nat (List.length calls) in
  let successfulCalls := count salesCallSchema.isSuccessful calls in
  let totalDuration := fold_left (fun sum c => sum + duration c) calls 0 in
  SalesRepStats.mk totalCalls
    (count is_completed calls)
    successfulCalls
    totalDuration
    (count dealClosed calls)
    (fold_left (fun sum c => (sum + dealValue c)%Q) calls 0%Q)
    (if 0 <? totalCalls
     then JS.Math_round (inject_Z totalDuration / inject_Z totalCalls)
     else 0)
    (if 0 <? totalCalls
     then JS.Math_round
            (inject_Z successfulCalls / inject_Z totalCalls * 100)
     else 0).

End salesCallStatics.

(* ------------------------------------------------------------------ *)
(** ** PerformanceController: gathering a Performance record *)

Inductive AttendanceStatus : Type :=
| present
| absent
| half_day
| late
| early_out.

(** The fields of an Attendance record that the controller reads. *)
Module Attendance.
Record t : Type := mk
  { status : AttendanceStatus;
    checkIn_isLate : bool;
    checkOut_isEarly : bool }.
End Attendance.

(** What [gatherPerformanceData] returns. *)
Module PerformanceData.
Record t : Type := mk
  { tasksCompleted : Z;
    tasksAssigned : Z;
    tasksOverdue : Z;
    averageTaskCompletionTime : Z;
    attendanceDays : Z;
    totalWorkingDays : Z;
    lateArrivals : Z;
    earlyDepartures : Z;
    salesCalls : Z;
    salesConversions : Z;
    revenueGenerated : Q;
    dealsClosed : Z }.
End PerformanceData.

(** What the five queries of [gatherPerformanceData] returned: the
    employee (with the designation 'sales' or another one), the tasks of
    the window, the attendance records of the window, the sales calls of
    the window, and the tasks with tracked time. *)
Module Gathered.
Record t : Type := mk
  { employee : option bool;
    tasks : list Task.t;
    attendanceRecords : list Attendance.t;
    salesCalls : list SalesCall.t;
    timeTrackingTasks : list Task.t }.
End Gathered.

Module PerformanceData_controller.

Definition ms_per_day : Z := 1000 * 60 * 60 * 24.

(** [Date.prototype.getDay] in a time zone that stays [tz] milliseconds
    ahead of UTC all year: 0 is Sunday, and 1 January 1970 was a
    Thursday. *)
Definition getDay (tz date : Z) : Z := ((date + tz) / ms_per_day + 4) mod 7.

(** The [while] loop of [calculateWorkingDays].  [setDate(getDate() + 1)]
    moves the date one day ahead, which in such a time zone is
    [ms_per_day] later.  [fuel] bounds the number of iterations. *)
Fixpoint workingDays_loop (fuel : nat) (tz currentDate endDate : Z)
  (workingDays : Z) : Z :=
  match fuel with
  | O => workingDays
  | S fuel =>
      if currentDate <=? endDate then
        let dayOfWeek := getDay tz currentDate in
        let workingDays :=
          if negb (dayOfWeek =? 0) && negb (dayOfWeek =? 6)
          then workingDays + 1
          else workingDays in
        workingDays_loop fuel tz (currentDate + ms_per_day) endDate
          workingDays
      else workingDays
  end.

(** The number of iterations the loop makes. *)
Definition days_between (startDate endDate : Z) : nat :=
  Z.to_nat ((endDate - startDate) / ms_per_day + 1).

Definition calculateWorkingDays (tz startDate endDate : Z) : Z :=
  workingDays_loop (days_between startDate endDate) tz startDate endDate 0.

Definition count {A : Type} (p : A -> bool) (l : list A) : Z :=
  Z.of_nat (List.length (filter p l)).






End PerformanceData_controller.

(* ------------------------------------------------------------------ *)
(** ** Vocabulary for Performance records *)

Module PerformanceRules.
Import Performance.

(** Counters as the controller gathers them: nothing negative, no more
    completed or overdue tasks than assigned ones, no more days attended
    than working days, no more conversions than calls. *)
Definition sane (p : Performance.t) : Prop :=
  0 <= tasksCompleted p <= tasksAssigned p
  /\ 0 <= tasksOverdue p <= tasksAssigned p
  /\ 0 <= attendanceDays p <= totalWorkingDays p
  /\ 0 <= salesConversions p <= salesCalls p.

(** The grades from F, the lowest, to A+. *)
Definition grade_rank (g : Grade) : Z :=
  match g with
  | F => 0
  | D => 1
  | C => 2
  | C_plus => 3
  | B => 4
  | B_plus => 5
  | A => 6
  | A_plus => 7
  end.

(** The working days among [n] days from [date] on. *)
Fixpoint count_days (n : nat) (tz date : Z) : Z :=
  match n with
  | O => 0
  | S n =>
      let dayOfWeek := PerformanceData_controller.getDay tz date in
      (if negb (dayOfWeek =? 0) && negb (dayOfWeek =? 6) then 1 else 0)
      + count_days n tz (date + PerformanceData_controller.ms_per_day)
  end.

End PerformanceRules.

(* ------------------------------------------------------------------ *)
(** ** More concrete tasks and records *)

Module Examples.

(** A pending task of [u1] and [u2], due at 100000, with an idle ledger
    entry for [u1] only. *)
Definition fresh_task : Task.t :=
  Task.mk
    [Assignee.mk "u1"%string 0 primary; Assignee.mk "u2"%string 0 collaborator]
    "boss"%string PENDING
    (Progress.mk planning 0%Q) (Some 100000) None None None
    [Tracking.mk "u1"%string 0 [] false None (Some 0)]
    [] 0 None None false false.

(** The same task, already past its due date at the times used below. *)
Definition stale_task : Task.t :=
  Task.mk
    [Assignee.mk "u1"%string 0 primary; Assignee.mk "u2"%string 0 collaborator]
    "boss"%string PENDING
    (Progress.mk planning 0%Q) (Some 5) None None None
    [Tracking.mk "u1"%string 0 [] false None (Some 0)]
    [] 0 None None false false.

(** Six requests against [fresh_task], two of which throw. *)
Definition busy_day : list Lifecycle.Call :=
  [Lifecycle.StartTimeTracking "u1" 10;
   Lifecycle.AddAssignee "u3" reviewer 20;
   Lifecycle.AddAssignee "u3" reviewer 21;
   Lifecycle.StartTimeTracking "u3" 30;
   Lifecycle.RemoveAssignee "u1" 40;
   Lifecycle.StopTimeTracking "u1" "late" 50;
   Lifecycle.UpdateProgress (250 # 1) (Some testing) "u2" 60;
   Lifecycle.MarkAsCompleted "u2" 70].

(** A completed call of [rep] that closed a deal and has no closing date
    yet, a call that reached a voicemail, and a call of somebody else. *)
Definition closing_call : SalesCall.t :=
  SalesCall.mk "rep"%string call_completed 10 60 (Some deal_closed)
    EmptyString false None EmptyString (500 # 1) false None.

Definition voicemail_call : SalesCall.t :=
  SalesCall.mk "rep"%string call_no_answer 20 30 (Some voicemail_left)
    EmptyString false None EmptyString 0%Q false None.

Definition call_log : list SalesCall.t :=
  [closing_call; voicemail_call;
   SalesCall.mk "other"%string call_scheduled 30 0 None
     EmptyString false None EmptyString 0%Q false None].


End Examples.

(* ------------------------------------------------------------------ *)
(** ** Vocabulary for the ranking *)

Module RankingRules.

(** The entries of a list that have a given [totalScore], in order. *)
Definition scoring (v : Z) (l : list Score.t) : list Score.t :=
  filter (fun s => Score.totalScore s =? v) l.

(** The counters of a score record are consistent. *)
Definition counters_ok (s : Score.t) : Prop :=
  0 <= Score.tasksCompleted s
  /\ 0 <= Score.tasksInProgress s
  /\ 0 <= Score.onTimeCompletions s
  /\ 0 <= Score.overdueCompletions s
  /\ Score.onTimeCompletions s + Score.overdueCompletions s
     = Score.tasksCompleted s.



End RankingRules.

(* ------------------------------------------------------------------ *)
(** * Properties *)

(** ** Arrays and objects *)

Section ArrayFacts.
Context {A : Type}.
Variables (p : A -> bool) (f : A -> A).

Lemma find_update_first (l : list A) (x : A) :
  JS.find p l = Some x ->
  p (f x) = true ->
  JS.find p (JS.update_first p f l) = Some (f x).
Proof.
  unfold JS.find.
  induction l as [|y l IH]; simpl; intros Hfind Hp; [discriminate|].
  destruct (p y) eqn:Hy.
  - inversion Hfind; subst. simpl. now rewrite Hp.
  - simpl. rewrite Hy. auto.
Qed.


Lemma find_app_fresh (l : list A) (x : A) :
  JS.find p l = None -> p x = true -> JS.find p (l ++ [x]) = Some x.
Proof.
  unfold JS.find.
  induction l as [|y l IH]; simpl; intros Hfind Hp.
  - now rewrite Hp.
  - destruct (p y); [discriminate|auto].
Qed.

Lemma filter_update_first_out (l : list A) :
  (forall x, p (f x) = p x) ->
  filter (fun x => negb (p x)) (JS.update_first p f l)
  = filter (fun x => negb (p x)) l.
Proof.
  intros Hf. induction l as [|y l IH]; simpl; [reflexivity|].
  destruct (p y) eqn:Hy; simpl.
  - now rewrite Hf, Hy.
  - now rewrite Hy, IH.
Qed.

End ArrayFacts.

Lemma find_satisfies {A : Type} (p : A -> bool) (l : list A) (x : A) :
  JS.find p l = Some x -> p x = true /\ In x l.
Proof.
  unfold JS.find. intros H. apply find_some in H. tauto.
Qed.

(** ** [save] and the ledger *)

Section SaveFacts.
Import Task.
Variable now : Z.

Lemma pre_save_statusHistory_timeTracking (d : Task.t) :
  timeTracking (taskSchema.pre_save_statusHistory now d) = timeTracking d.
Proof.
  unfold taskSchema.pre_save_statusHistory.
  destruct (statusModified d && negb (isNew d)); [|reflexivity].
  simpl. destruct (status_eqb (status d) COMPLETED); simpl;
    destruct (status_eqb (status d) IN_PROGRESS); simpl;
    destruct (startDate d); reflexivity.
Qed.

Lemma pre_save_overdue_timeTracking (d : Task.t) :
  timeTracking (taskSchema.pre_save_overdue now d) = timeTracking d.
Proof.
  unfold taskSchema.pre_save_overdue.
  destruct (dueDate d); [|reflexivity].
  match goal with |- context [if ?c then _ else _] => destruct c end;
    reflexivity.
Qed.

Lemma saved_timeTracking (d : Task.t) :
  timeTracking (taskSchema.saved now d) = timeTracking d.
Proof.
  unfold taskSchema.saved. simpl.
  now rewrite pre_save_overdue_timeTracking,
    pre_save_statusHistory_timeTracking.
Qed.

Lemma pre_save_statusHistory_assignedTo (d : Task.t) :
  assignedTo (taskSchema.pre_save_statusHistory now d) = assignedTo d.
Proof.
  unfold taskSchema.pre_save_statusHistory.
  destruct (statusModified d && negb (isNew d)); [|reflexivity].
  simpl. destruct (status_eqb (status d) COMPLETED); simpl;
    destruct (status_eqb (status d) IN_PROGRESS); simpl;
    destruct (startDate d); reflexivity.
Qed.

Lemma pre_save_overdue_assignedTo (d : Task.t) :
  assignedTo (taskSchema.pre_save_overdue now d) = assignedTo d.
Proof.
  unfold taskSchema.pre_save_overdue.
  destruct (dueDate d); [|reflexivity].
  match goal with |- context [if ?c then _ else _] => destruct c end;
    reflexivity.
Qed.

Lemma saved_assignedTo (d : Task.t) :
  assignedTo (taskSchema.saved now d) = assignedTo d.
Proof.
  unfold taskSchema.saved. simpl.
  now rewrite pre_save_overdue_assignedTo,
    pre_save_statusHistory_assignedTo.
Qed.

End SaveFacts.

(** ** The time-tracking ledger *)

Section LedgerFacts.
Import Task Requests.





(** What a successful [stopTimeTracking] leaves in memory. *)
Lemma stopTimeTracking_run (userId : ObjectId) (notes : string) (now : Z)
  (d : Task.t) (e : Tracking.t) :
  JS.find (Tracking.of_user userId) (timeTracking d) = Some e ->
  Tracking.isActive e = true ->
  let d' :=
    taskSchema.saved now
      (set_timeTracking
         (JS.update_first (Tracking.of_user userId)
            (taskSchema.close notes now) (timeTracking d)) d) in
  taskSchema.stopTimeTracking userId notes now d = (Ok d', d').
Proof.
  intros Hfind Hact. unfold taskSchema.stopTimeTracking, bind, this.
  rewrite Hfind, Hact. reflexivity.
Qed.



Lemma of_user_refl (userId : ObjectId) (now : Z) :
  Tracking.of_user userId (taskSchema.fresh_tracking userId now) = true.
Proof. apply String.eqb_refl. Qed.


(** What a successful [startTimeTracking] leaves in memory. *)
Lemma startTimeTracking_run (userId : ObjectId) (now : Z) (d : Task.t) :
  taskSchema.isAssigned userId d = true ->
  (forall e, JS.find (Tracking.of_user userId) (timeTracking d) = Some e ->
             Tracking.isActive e = false) ->
  let d1 :=
    set_timeTracking
      (JS.update_first (Tracking.of_user userId) (taskSchema.activate now)
         (with_entry userId now (timeTracking d))) d in
  let d' :=
    taskSchema.saved now
      (if status_eqb (status d) PENDING then set_status IN_PROGRESS d1
       else d1) in
  taskSchema.startTimeTracking userId now d = (Ok d', d').
Proof.
  intros Hassigned Hidle.
  unfold taskSchema.startTimeTracking, bind, this, throw, ret, assign.
  rewrite Hassigned. simpl. unfold with_entry.
  destruct (JS.find (Tracking.of_user userId) (timeTracking d)) as [e|] eqn:Hf.
  - rewrite Hf, (Hidle e eq_refl). simpl.
    destruct (status_eqb (status d) PENDING); reflexivity.
  - simpl.
    rewrite (find_app_fresh _ _ _ Hf (of_user_refl userId now)). simpl.
    destruct (status_eqb (status d) PENDING); reflexivity.
Qed.

(** A throwing [startTimeTracking] has assigned nothing. *)
Lemma startTimeTracking_throw (userId : ObjectId) (now : Z)
  (d d' : Task.t) (err : Error) :
  taskSchema.startTimeTracking userId now d = (Throw err, d') -> d' = d.
Proof.
  unfold taskSchema.startTimeTracking, bind, this, throw, ret, assign.
  destruct (negb (taskSchema.isAssigned userId d)); [now inversion 1|].
  destruct (JS.find (Tracking.of_user userId) (timeTracking d))
    as [e|] eqn:Hf; simpl.
  - rewrite Hf. destruct (Tracking.isActive e); [now inversion 1|].
    simpl. destruct (status_eqb (status d) PENDING); simpl; inversion 1.
  - rewrite (find_app_fresh _ _ _ Hf (of_user_refl userId now)). simpl.
    destruct (status_eqb (status d) PENDING); simpl; inversion 1.
Qed.




End LedgerFacts.

Section LedgerClaim.
Import Task Requests Scenarios.

Lemma startTimeTracking_ok_inv (userId : ObjectId) (now : Z)
  (d d2 r : Task.t) :
  taskSchema.startTimeTracking userId now d = (Ok r, d2) ->
  taskSchema.isAssigned userId d = true
  /\ (forall e, JS.find (Tracking.of_user userId) (timeTracking d) = Some e ->
                Tracking.isActive e = false).
Proof.
  unfold taskSchema.startTimeTracking, bind, this, throw, ret, assign.
  destruct (taskSchema.isAssigned userId d); simpl; [|inversion 1].
  destruct (JS.find (Tracking.of_user userId) (timeTracking d))
    as [e|] eqn:Hf; simpl.
  - rewrite Hf. destruct (Tracking.isActive e) eqn:Ha; [inversion 1|].
    intros _. split; [reflexivity|]. now intros e' [= <-].
  - intros _. split; [reflexivity|]. intros e' [=].
Qed.


Lemma stopped_entry (userId : ObjectId) (notes : string) (now : Z)
  (d : Task.t) (e : Tracking.t) :
  JS.find (Tracking.of_user userId) (timeTracking d) = Some e ->
  Tracking.isActive e = true ->
  exists d2,
    taskSchema.stopTimeTracking userId notes now d = (Ok d2, d2)
    /\ JS.find (Tracking.of_user userId) (timeTracking d2)
       = Some (taskSchema.close notes now e).
Proof.
  intros Hf Ha. eexists. split.
  - exact (stopTimeTracking_run userId notes now d e Hf Ha).
  - rewrite saved_timeTracking. cbn [timeTracking set_timeTracking].
    apply find_update_first; [exact Hf|].
    apply find_satisfies in Hf. exact (proj1 Hf).
Qed.



End LedgerClaim.


(** ** The overdue rule *)

Section OverdueFacts.
Import Task Requests Scenarios.

Lemma pre_save_statusHistory_status (now : Z) (d : Task.t) :
  status (taskSchema.pre_save_statusHistory now d) = status d
  /\ dueDate (taskSchema.pre_save_statusHistory now d) = dueDate d.
Proof.
  unfold taskSchema.pre_save_statusHistory.
  destruct (statusModified d && negb (isNew d)); [|split; reflexivity].
  simpl. destruct (status_eqb (status d) COMPLETED); simpl;
    destruct (status_eqb (status d) IN_PROGRESS); simpl;
    destruct (startDate d); split; reflexivity.
Qed.

(** The status a [save] writes. *)
Lemma saved_status (now : Z) (d : Task.t) :
  status (taskSchema.saved now d)
  = match dueDate d with
    | Some due =>
        if (due <? now)
           && negb (status_eqb (status d) COMPLETED)
           && negb (status_eqb (status d) CANCELLED)
           && negb (status_eqb (status d) OVERDUE)
        then OVERDUE
        else status d
    | None => status d
    end.
Proof.
  unfold taskSchema.saved, taskSchema.pre_save_overdue.
  destruct (pre_save_statusHistory_status now d) as [Hs Hd].
  cbn [status persisted]. rewrite Hd, Hs.
  destruct (dueDate d); [|exact Hs].
  match goal with |- context [if ?c then _ else _] => destruct c end;
    [reflexivity | exact Hs].
Qed.

Lemma saves_fixed_status (s : TASK_STATUS) (nows : list Z) (d : Task.t) :
  s = COMPLETED \/ s = CANCELLED \/ s = OVERDUE ->
  status d = s -> status (saves nows d) = s.
Proof.
  intros Hs. unfold saves. revert d.
  induction nows as [|now nows IH]; simpl; intros d Hd; [exact Hd|].
  apply IH. rewrite saved_status, Hd.
  destruct (dueDate d); [|reflexivity].
  destruct Hs as [-> | [-> | ->]]; simpl;
    rewrite ?andb_false_r; reflexivity.
Qed.

(** C6.  A save after the due date of a task whose status is none of
    completed, cancelled, overdue writes the status overdue, and every
    later save keeps it (the transition happens once); a task whose status
    is completed or cancelled keeps that status through any number of
    saves, whatever its due date and whatever the clock. *)
Theorem save_marks_overdue (d : Task.t) (now : Z) (later : list Z) :
  (forall due,
      dueDate d = Some due -> due < now ->
      status d <> COMPLETED -> status d <> CANCELLED ->
      status d <> OVERDUE ->
      status (taskSchema.saved now d) = OVERDUE
      /\ status (saves later (taskSchema.saved now d)) = OVERDUE)
  /\ (status d = COMPLETED \/ status d = CANCELLED ->
      status (saves (now :: later) d) = status d).
Proof.
  split.
  - intros due Hdue Hlate Hc Hx Ho.
    assert (H1 : status (taskSchema.saved now d) = OVERDUE).
    { rewrite saved_status, Hdue.
      apply Z.ltb_lt in Hlate. rewrite Hlate.
      destruct (status d); simpl; congruence. }
    split; [exact H1|].
    apply saves_fixed_status; auto.
  - intros H. apply saves_fixed_status; [tauto | reflexivity].
Qed.

Lemma save_marks_overdue_witness :
  status late_task = PENDING
  /\ status (taskSchema.saved 2000 late_task) = OVERDUE
  /\ status (saves [3000; 4000] (taskSchema.saved 2000 late_task)) = OVERDUE
  /\ status (saves [2000; 3000; 4000] done_task) = COMPLETED.
Proof.
  pose proof (save_marks_overdue late_task 2000 [3000; 4000]) as [H _].
  pose proof (save_marks_overdue done_task 2000 [3000; 4000]) as [_ H'].
  split; [reflexivity|].
  split; [|split].
  - apply (H 1000); [reflexivity | lia | discriminate ..].
  - apply (H 1000); [reflexivity | lia | discriminate ..].
  - apply H'. left. reflexivity.
Defined.

End OverdueFacts.


(** ** The roster *)

Section RosterFacts.
Import Task Requests Scenarios.



End RosterFacts.


(** ** Entering the completed status *)

Section CompletionFacts.
Import Task Requests Scenarios.

Lemma saved_progress (now : Z) (d : Task.t) :
  progress (taskSchema.saved now d) = progress d.
Proof.
  unfold taskSchema.saved, taskSchema.pre_save_overdue,
    taskSchema.pre_save_statusHistory.
  destruct (statusModified d && negb (isNew d)); simpl.
  - destruct (status_eqb (status d) COMPLETED); simpl;
      destruct (status_eqb (status d) IN_PROGRESS); simpl;
      destruct (startDate d); simpl; destruct (dueDate d); simpl;
      try reflexivity;
      match goal with |- context [if ?c then _ else _] => destruct c end;
      reflexivity.
  - destruct (dueDate d); simpl; try reflexivity.
    match goal with |- context [if ?c then _ else _] => destruct c end;
      reflexivity.
Qed.

(** A status update never touches the ledger or the progress of the task,
    whatever status it sets. *)
Lemma update_status_keeps_ledger (v : TASK_STATUS) (now : Z) (d : Task.t) :
  timeTracking (update_status v now d) = timeTracking d
  /\ progress (update_status v now d) = progress d.
Proof.
  unfold update_status. now rewrite saved_timeTracking, saved_progress.
Qed.







(** C5, on the task shared by [u1] and [u2] while [u2] has a session open
    since 500.  The complete action at 900 closes that session with a
    400 ms session noted "Task completed" and sets the progress to
    (completed, 100).  An explicit update of the status to completed, saved
    at 900, does set [completedDate] and the status, but leaves the session
    of [u2] open, records no closing session, and leaves the progress at
    (development, 40). *)
Theorem status_update_to_completed_keeps_sessions_open :
  (exists d,
      taskSchema.markAsCompleted "u1" 900 shared_task = (Ok d, d)
      /\ status d = COMPLETED
      /\ completedDate d = Some 900
      /\ map Tracking.isActive (timeTracking d) = [false; false]
      /\ map Tracking.sessions (timeTracking d)
         = [[]; [Session.mk (Some 500) (Some 900) 400 "Task completed"]]
      /\ progress d = Progress.mk completed 100%Q)
  /\ (let d := update_status COMPLETED 900 shared_task in
      status d = COMPLETED
      /\ completedDate d = Some 900
      /\ map Tracking.isActive (timeTracking d) = [false; true]
      /\ map Tracking.sessions (timeTracking d) = [[]; []]
      /\ progress d = Progress.mk development (40 # 1)).
Proof.
  split.
  - eexists. split; [reflexivity|]. repeat split.
  - repeat split.
Qed.

End CompletionFacts.


(** ** The task-based ranking: accumulation *)

Section ObjectFacts.
Context {V : Type}.

Lemma get_define (k k' : string) (v : V) (o : JS.object V) :
  JS.get k (JS.define k' v o)
  = match JS.get k o with
    | Some x => Some x
    | None => if String.eqb k' k then Some v else None
    end.
Proof.
  unfold JS.define.
  induction o as [|[k0 v0] o IH]; simpl; [reflexivity|].
  destruct (String.eqb k0 k); [reflexivity | exact IH].
Qed.

Lemma get_modify (k k' : string) (f : V -> V) (o : JS.object V) :
  JS.get k (JS.modify k' f o)
  = if String.eqb k' k then option_map f (JS.get k o) else JS.get k o.
Proof.
  induction o as [|[k0 v0] o IH]; simpl.
  - now destruct (String.eqb k' k).
  - destruct (String.eqb k0 k') eqn:H0; simpl.
    + apply String.eqb_eq in H0. subst k0.
      destruct (String.eqb k' k); reflexivity.
    + destruct (String.eqb k0 k) eqn:H1; [|exact IH].
      apply String.eqb_eq in H1. subst k0. now rewrite String.eqb_sym, H0.
Qed.

End ObjectFacts.

(** Reduce the field updates of a score record, and nothing else. *)
Ltac score_cbn :=
  cbn [Score.totalScore Score.tasksCompleted Score.tasksInProgress
       Score.totalTimeSpent Score.onTimeCompletions Score.overdueCompletions
       Score.averageProgress Score.progressCount Score.user
       Score.add_totalScore Score.incr_tasksCompleted
       Score.incr_tasksInProgress Score.add_totalTimeSpent
       Score.incr_onTimeCompletions Score.incr_overdueCompletions
       Score.add_averageProgress Score.incr_progressCount status_eqb].

Section ScoringFacts.
Import Task ScoringRules.





(** The progress part of [score_task] runs after, and apart from, the
    status part. *)
Lemma score_task_progress (task : Task.t) (userId : ObjectId)
  (score : Score.t) :
  let percentage := Progress.percentage (progress task) in
  let before := taskSchema.score_task (without_progress task) userId score in
  taskSchema.score_task task userId score
  = if JS.gtb percentage 0
    then Score.add_totalScore (JS.Math_round (percentage / 10))
           (Score.incr_progressCount
              (Score.add_averageProgress percentage before))
    else before.
Proof.
  unfold taskSchema.score_task, without_progress.
  cbn [status timeTracking estimatedHours completedDate dueDate progress
       set_progress Progress.percentage taskSchema.completed_on_time].
  change (JS.gtb 0 0) with false. cbv iota zeta.
  reflexivity.
Qed.





End ScoringFacts.


(** ** The task-based ranking: sorting and the result *)

Section RankingFacts.
Import Task ScoringRules.

Lemma insert_by_totalScore_perm (a : Score.t) (l : list Score.t) :
  Permutation (taskSchema.insert_by_totalScore a l) (a :: l).
Proof.
  induction l as [|b l IH]; simpl; [reflexivity|].
  destruct (Score.totalScore b - Score.totalScore a <=? 0); [reflexivity|].
  rewrite IH. apply perm_swap.
Qed.

Lemma sort_by_totalScore_perm (l : list Score.t) :
  Permutation (taskSchema.sort_by_totalScore l) l.
Proof.
  induction l as [|a l IH]; simpl; [reflexivity|].
  rewrite insert_by_totalScore_perm. now constructor.
Qed.

Lemma insert_by_totalScore_sorted (a : Score.t) (l : list Score.t) :
  StronglySorted by_totalScore_desc l ->
  StronglySorted by_totalScore_desc (taskSchema.insert_by_totalScore a l).
Proof.
  induction 1 as [|b l Hl IH Hb]; simpl.
  - repeat constructor.
  - destruct (Score.totalScore b - Score.totalScore a <=? 0) eqn:Hcmp.
    + apply Z.leb_le in Hcmp.
      constructor; [constructor; assumption|].
      constructor; [unfold by_totalScore_desc; lia|].
      rewrite Forall_forall in *. intros c Hc.
      specialize (Hb c Hc). unfold by_totalScore_desc in *. lia.
    + apply Z.leb_gt in Hcmp.
      constructor; [exact IH|].
      rewrite Forall_forall in *. intros c Hc.
      apply (Permutation_in _ (insert_by_totalScore_perm a l)) in Hc.
      destruct Hc as [<- | Hc]; [unfold by_totalScore_desc; lia | auto].
Qed.

Lemma sort_by_totalScore_sorted (l : list Score.t) :
  StronglySorted by_totalScore_desc (taskSchema.sort_by_totalScore l).
Proof.
  induction l as [|a l IH]; simpl; [constructor|].
  now apply insert_by_totalScore_sorted.
Qed.


Lemma filter_map_finalize (l : list Score.t) :
  filter (fun score => 0 <? Score.tasksCompleted score)
    (map taskSchema.finalize l)
  = map taskSchema.finalize (filter completed_some l).
Proof.
  induction l as [|a l IH]; simpl; [reflexivity|].
  unfold completed_some at 1.
  destruct (0 <? Score.tasksCompleted a); simpl; now rewrite IH.
Qed.

Lemma allRankings_perm (collection : list Task.t) (startDate endDate : Z) :
  Permutation
    (Rankings.allRankings
       (taskSchema.calculateEmployeeOfTheMonth collection startDate endDate))
    (map taskSchema.finalize
       (filter completed_some
          (JS.values
             (taskSchema.accumulate
                (filter (taskSchema.in_period startDate endDate)
                   collection))))).
Proof.
  unfold taskSchema.calculateEmployeeOfTheMonth.
  cbn [Rankings.allRankings].
  rewrite sort_by_totalScore_perm, filter_map_finalize. reflexivity.
Qed.

(** C2.  The ranking pass of [calculateEmployeeOfTheMonth]: [allRankings]
    holds, once each, the finished records of exactly those accumulated
    employees whose [tasksCompleted] is positive (so an employee with
    in-progress tasks only is left out), ordered by [totalScore]
    descending; [employeeOfTheMonth] is its first entry, or null when it is
    empty; [topPerformers] is its first five entries. *)
Theorem rankings_of_completers_sorted_desc (collection : list Task.t)
  (startDate endDate : Z) :
  let result :=
    taskSchema.calculateEmployeeOfTheMonth collection startDate endDate in
  let accumulated :=
    JS.values
      (taskSchema.accumulate
         (filter (taskSchema.in_period startDate endDate) collection)) in
  Permutation (Rankings.allRankings result)
    (map taskSchema.finalize (filter completed_some accumulated))
  /\ (forall r, In r (Rankings.allRankings result) ->
                0 < Score.tasksCompleted r)
  /\ StronglySorted by_totalScore_desc (Rankings.allRankings result)
  /\ Rankings.employeeOfTheMonth result
     = match Rankings.allRankings result with
       | [] => None
       | first :: _ => Some first
       end
  /\ Rankings.topPerformers result = firstn 5 (Rankings.allRankings result).
Proof.
  intros result accumulated.
  assert (Hperm : Permutation (Rankings.allRankings result)
                    (map taskSchema.finalize
                       (filter completed_some accumulated))).
  { apply allRankings_perm. }
  split; [exact Hperm|]. split; [|split; [|split]].
  - intros r Hr. apply (Permutation_in _ Hperm) in Hr.
    apply in_map_iff in Hr. destruct Hr as [s [<- Hs]].
    apply filter_In in Hs. destruct Hs as [_ Hs].
    unfold completed_some in Hs. apply Z.ltb_lt in Hs. exact Hs.
  - apply sort_by_totalScore_sorted.
  - unfold result, taskSchema.calculateEmployeeOfTheMonth.
    cbn [Rankings.allRankings Rankings.employeeOfTheMonth].
    now destruct (taskSchema.sort_by_totalScore _).
  - reflexivity.
Qed.

(** An employee with in-progress work only has earned points, and is not
    ranked. *)
Example in_progress_only_is_left_out :
  map (fun kv => (fst kv, Score.totalScore (snd kv)))
    (taskSchema.accumulate
       [Scenarios.five_percent_task; Scenarios.january_task])
  = [("u1"%string, 11); ("E"%string, 100)]
  /\ map Score.user
       (Rankings.allRankings
          (taskSchema.calculateEmployeeOfTheMonth
             [Scenarios.five_percent_task; Scenarios.january_task]
             0 Scenarios.january_31))
     = ["E"%string].
Proof. split; vm_compute; reflexivity. Qed.

End RankingFacts.


(** ** The task-based ranking: what a ranked score is made of *)

Section ScoreClaims.
Import Task ScoringRules Scenarios.










End ScoreClaims.


(** ** The progress bonus *)

Section ProgressClaims.
Import Task ScoringRules Scenarios.

Lemma gtb_0_spec (q : Q) : JS.gtb q 0 = true <-> (0 < q)%Q.
Proof.
  unfold JS.gtb, JS.ltb. rewrite negb_true_iff.
  split.
  - intros H. apply Qnot_le_lt. intros Hle.
    apply Qle_bool_iff in Hle. congruence.
  - intros H. destruct (Qle_bool q 0) eqn:Hb; [|reflexivity].
    apply Qle_bool_iff in Hb. exfalso. exact (Qlt_not_le _ _ H Hb).
Qed.

(** The status part of [score_task] leaves the progress accumulators
    alone. *)
Lemma status_part_keeps_progress (task : Task.t) (userId : ObjectId)
  (score : Score.t) :
  let before := taskSchema.score_task (without_progress task) userId score in
  Score.averageProgress before = Score.averageProgress score
  /\ Score.progressCount before = Score.progressCount score.
Proof.
  unfold taskSchema.score_task, without_progress.
  cbn [status timeTracking estimatedHours completedDate dueDate progress
       set_progress Progress.percentage].
  change (JS.gtb 0 0) with false. cbv iota zeta.
  destruct (JS.find (Tracking.of_user userId) (timeTracking task));
    destruct (status task); destruct (estimatedHours task);
    destruct (taskSchema.completed_on_time task);
    cbn [status_eqb];
    repeat match goal with
           | |- context [if ?c then _ else _] => destruct c
           end;
    split; reflexivity.
Qed.

Lemma round_tenth_bounds (q : Q) :
  (0 < q)%Q -> (q <= 100)%Q -> 0 <= JS.Math_round (q / 10) <= 10.
Proof.
  intros Hpos Hle. unfold JS.Math_round.
  assert (H0 : (0 <= q / 10)%Q).
  { apply Qle_shift_div_l; [reflexivity|]. rewrite Qmult_0_l.
    now apply Qlt_le_weak. }
  assert (H1 : (q / 10 <= 10)%Q).
  { apply Qle_shift_div_r; [reflexivity|]. exact Hle. }
  split.
  - change 0 with (Qfloor (1 # 2)). apply Qfloor_resp_le.
    rewrite <- (Qplus_0_l (1 # 2)) at 1.
    apply Qplus_le_compat; [exact H0 | apply Qle_refl].
  - change 10 with (Qfloor (10 + (1 # 2))). apply Qfloor_resp_le.
    apply Qplus_le_compat; [exact H1 | apply Qle_refl].
Qed.

(** C3, as the code has it.  For a (task, assignee) pair whose
    [progress.percentage] is positive, whatever the status: the assignee's
    [totalScore] gets [Math.round(percentage / 10)] points more than the
    same task would give at zero percent (the nearest integer, a half
    going up), the percentage is added to the average-progress
    accumulator and the count goes up by one; and for a percentage of at
    most 100 these points lie between 0 and 10. *)
Theorem progress_bonus_is_round (task : Task.t) (userId : ObjectId)
  (score : Score.t) :
  let percentage := Progress.percentage (progress task) in
  let before := taskSchema.score_task (without_progress task) userId score in
  let after := taskSchema.score_task task userId score in
  (0 < percentage)%Q ->
  Score.totalScore after
  = Score.totalScore before + JS.Math_round (percentage / 10)
  /\ Score.averageProgress after
     = (Score.averageProgress score + percentage)%Q
  /\ Score.progressCount after = Score.progressCount score + 1
  /\ ((percentage <= 100)%Q -> 0 <= JS.Math_round (percentage / 10) <= 10).
Proof.
  intros percentage before after Hpos.
  destruct (status_part_keeps_progress task userId score) as [Havg Hcnt].
  fold before in Havg, Hcnt.
  unfold after. rewrite score_task_progress. cbv zeta.
  fold percentage. fold before.
  rewrite (proj2 (gtb_0_spec percentage) Hpos).
  score_cbn. rewrite Havg, Hcnt.
  repeat split; try reflexivity;
    apply (round_tenth_bounds percentage Hpos); assumption.
Qed.

Lemma progress_bonus_is_round_witness :
  (0 < Progress.percentage (progress five_percent_task))%Q
  /\ Score.totalScore
       (taskSchema.score_task five_percent_task "u1" (Score.init "u1"))
     = 10 + 1
  /\ Score.progressCount
       (taskSchema.score_task five_percent_task "u1" (Score.init "u1"))
     = 1.
Proof.
  assert (H : (0 < Progress.percentage (progress five_percent_task))%Q)
    by reflexivity.
  split; [exact H|].
  destruct (progress_bonus_is_round five_percent_task "u1" (Score.init "u1") H)
    as [Hscore [_ [Hcount _]]].
  split; [rewrite Hscore | rewrite Hcount]; reflexivity.
Defined.

(** C3 as the specification states it fails on a task at five percent:
    the percentage is positive, [floor(5 / 10)] is 0, and the pair gets one
    point more than the same task at zero percent. *)
Lemma progress_bonus_is_not_floor :
  let before :=
    taskSchema.score_task (without_progress five_percent_task) "u1"
      (Score.init "u1") in
  let after :=
    taskSchema.score_task five_percent_task "u1" (Score.init "u1") in
  (0 < Progress.percentage (progress five_percent_task))%Q
  /\ floor_bonus five_percent_task = 0
  /\ Score.totalScore after = Score.totalScore before + 1
  /\ Score.totalScore after
     <> Score.totalScore before + floor_bonus five_percent_task.
Proof.
  cbv zeta. split; [reflexivity|]. split; [reflexivity|].
  split; [reflexivity|]. vm_compute. discriminate.
Qed.

End ProgressClaims.


(** ** The Performance score and grade *)

Section PerformanceClaims.
Import Performance performanceSchema Scenarios.
Local Open Scope Q_scope.

(** The sum the specification gives for the weighted score. *)
Lemma weighted_score (p : Performance.t) :
  fst (weighted p)
  == taskCompletionRate p * (30 # 100) + attendanceRate p * (25 # 100)
     + onTimeRate p * (20 # 100)
     + (if (0 <? salesCalls p)%Z
        then salesConversionRate p * (25 # 100)
        else 0).
Proof.
  unfold weighted. destruct (0 <? salesCalls p)%Z; cbn [fst]; ring.
Qed.






End PerformanceClaims.


(** ** The Performance-based employee of the month *)

Section MonthlyWinner.
Import Performance performanceSchema Scenarios.
Variable Date : Z -> Z -> Z -> Z.



End MonthlyWinner.

Section MonthlyWinnerExample.
Import Performance performanceSchema Scenarios.


End MonthlyWinnerExample.

(* ------------------------------------------------------------------ *)
(** * Further properties of the Task model *)

(** ** Errors and round trips of the time-tracking methods *)

Section TrackingErrors.
Import Task Requests Scenarios Examples.

Lemma saved_isAssigned (userId : ObjectId) (now : Z) (d : Task.t) :
  taskSchema.isAssigned userId (taskSchema.saved now d)
  = taskSchema.isAssigned userId d.
Proof. unfold taskSchema.isAssigned. now rewrite saved_assignedTo. Qed.




(** X2.  [stopTimeTracking] throws the no-entry error for a user without a
    ledger entry and the no-active-session error for a user whose entry is
    idle, in both cases before assigning anything; and once a stop has
    succeeded, every further stop by the same user throws the
    no-active-session error. *)
Theorem stopTimeTracking_errors (d : Task.t) (userId : ObjectId)
  (notes : string) (now : Z) :
  (JS.find (Tracking.of_user userId) (timeTracking d) = None ->
   taskSchema.stopTimeTracking userId notes now d
   = (Throw NoTrackingEntry, d))
  /\ (forall e,
        JS.find (Tracking.of_user userId) (timeTracking d) = Some e ->
        Tracking.isActive e = false ->
        taskSchema.stopTimeTracking userId notes now d
        = (Throw NoActiveSession, d))
  /\ (forall r d1 notes' later,
        taskSchema.stopTimeTracking userId notes now d = (Ok r, d1) ->
        taskSchema.stopTimeTracking userId notes' later d1
        = (Throw NoActiveSession, d1)).
Proof.
  assert (Hidle : forall x e n t,
             JS.find (Tracking.of_user userId) (timeTracking x) = Some e ->
             Tracking.isActive e = false ->
             taskSchema.stopTimeTracking userId n t x
             = (Throw NoActiveSession, x)).
  { intros x e n t Hf He.
    unfold taskSchema.stopTimeTracking, bind, this, throw.
    now rewrite Hf, He. }
  split; [|split].
  - intros Hf. unfold taskSchema.stopTimeTracking, bind, this, throw.
    now rewrite Hf.
  - intros e Hf He. now apply (Hidle d e).
  - intros r d1 notes' later Hrun.
    destruct (JS.find (Tracking.of_user userId) (timeTracking d))
      as [e|] eqn:Hf.
    + destruct (Tracking.isActive e) eqn:Ha.
      * destruct (stopped_entry userId notes now d e Hf Ha)
          as [d2 [Hrun2 Hf2]].
        rewrite Hrun2 in Hrun. injection Hrun as _ <-.
        now apply (Hidle d2 (taskSchema.close notes now e)).
      * rewrite (Hidle d e notes now Hf Ha) in Hrun. discriminate.
    + unfold taskSchema.stopTimeTracking, bind, this, throw in Hrun.
      rewrite Hf in Hrun. discriminate.
Qed.

Lemma stopTimeTracking_errors_witness :
  taskSchema.stopTimeTracking "u2" "n" 10 fresh_task
  = (Throw NoTrackingEntry, fresh_task)
  /\ taskSchema.stopTimeTracking "u1" "n" 10 fresh_task
     = (Throw NoActiveSession, fresh_task)
  /\ exists d1,
       taskSchema.stopTimeTracking "u2" "n" 900 shared_task = (Ok d1, d1)
       /\ taskSchema.stopTimeTracking "u2" "m" 950 d1
          = (Throw NoActiveSession, d1).
Proof.
  split; [|split].
  - apply (proj1 (stopTimeTracking_errors fresh_task "u2" "n" 10)).
    reflexivity.
  - apply (proj1 (proj2 (stopTimeTracking_errors fresh_task "u1" "n" 10))
             (Tracking.mk "u1" 0 [] false None (Some 0)));
      reflexivity.
  - eexists. split; [reflexivity|].
    apply (proj2 (proj2 (stopTimeTracking_errors shared_task "u2" "n" 900))
             _ _ "m"%string 950 eq_refl).
Defined.



End TrackingErrors.

(** ** What a start does to the status *)

Section StartStatus.
Import Task Requests Scenarios Examples.

Lemma started_document (userId : ObjectId) (now : Z) (d d1 r : Task.t) :
  taskSchema.startTimeTracking userId now d = (Ok r, d1) ->
  d1 = taskSchema.saved now
         (let d' :=
            set_timeTracking
              (JS.update_first (Tracking.of_user userId)
                 (taskSchema.activate now)
                 (with_entry userId now (timeTracking d))) d in
          if status_eqb (status d) PENDING
          then set_status IN_PROGRESS d'
          else d').
Proof.
  intros Hrun.
  destruct (startTimeTracking_ok_inv _ _ _ _ _ Hrun) as [Hassigned Hidle].
  rewrite (startTimeTracking_run userId now d Hassigned Hidle) in Hrun.
  now injection Hrun as _ <-.
Qed.

Lemma pre_save_overdue_keeps (now : Z) (x : Task.t) :
  startDate (taskSchema.pre_save_overdue now x) = startDate x
  /\ statusHistory (taskSchema.pre_save_overdue now x) = statusHistory x
  /\ completedDate (taskSchema.pre_save_overdue now x) = completedDate x.
Proof.
  unfold taskSchema.pre_save_overdue.
  destruct (dueDate x); [|repeat split].
  match goal with |- context [if ?c then _ else _] => destruct c end;
    repeat split.
Qed.

Lemma saved_in_progress (now : Z) (y : Task.t) :
  statusModified y = true -> isNew y = false -> status y = IN_PROGRESS ->
  startDate (taskSchema.saved now y) = Some (JS.orElse (startDate y) now)
  /\ statusHistory (taskSchema.saved now y)
     = statusHistory y
       ++ [StatusChange.mk IN_PROGRESS
             (JS.orElse (modifiedBy y) (assignedBy y)) now
             (taskSchema.reason_or (statusChangeReason y) "Status updated")].
Proof.
  intros Hm Hn Hs. unfold taskSchema.saved.
  cbn [startDate statusHistory persisted].
  destruct (pre_save_overdue_keeps now (taskSchema.pre_save_statusHistory now y))
    as [-> [-> _]].
  unfold taskSchema.pre_save_statusHistory.
  rewrite Hm, Hn. cbn [andb negb]. cbv zeta.
  do 3 (cbn [status set_statusHistory set_completedDate status_eqb];
        rewrite ?Hs).
  cbn [andb startDate set_statusHistory].
  destruct (startDate y) eqn:Hsd; cbn; rewrite ?Hsd; split; reflexivity.
Qed.

(** X4.  A successful start on a pending task promotes it to in progress, and
    the same save turns it overdue when its due date has passed.  When the
    document is not new the save also sets a missing start date to [now]
    and appends the promotion to in progress to the status history, with
    the assigner as author unless [modifiedBy] is set. *)
Theorem start_on_pending_task (d d1 r : Task.t) (userId : ObjectId)
  (now due : Z) :
  status d = PENDING ->
  dueDate d = Some due ->
  taskSchema.startTimeTracking userId now d = (Ok r, d1) ->
  status d1 = (if due <? now then OVERDUE else IN_PROGRESS)
  /\ (isNew d = false ->
      startDate d1 = Some (JS.orElse (startDate d) now)
      /\ statusHistory d1
         = statusHistory d
           ++ [StatusChange.mk IN_PROGRESS
                 (JS.orElse (modifiedBy d) (assignedBy d)) now
                 (taskSchema.reason_or (statusChangeReason d)
                    "Status updated")]).
Proof.
  intros Hs Hdue Hrun.
  rewrite (started_document _ _ _ _ _ Hrun). rewrite Hs.
  cbn [status_eqb]. cbv zeta. split.
  - rewrite saved_status. cbn [dueDate status set_status set_timeTracking].
    rewrite Hdue. cbn. now rewrite !andb_true_r.
  - intros Hnew.
    refine (saved_in_progress now
              (set_status IN_PROGRESS (set_timeTracking _ d)) _ Hnew eq_refl).
    cbn [statusModified set_status set_timeTracking status].
    rewrite Hs. cbn. apply orb_true_r.
Qed.

Lemma start_on_pending_task_witness :
  exists d1 d2,
    taskSchema.startTimeTracking "u1" 10 fresh_task = (Ok d1, d1)
    /\ status d1 = IN_PROGRESS /\ startDate d1 = Some 10
    /\ taskSchema.startTimeTracking "u1" 10 stale_task = (Ok d2, d2)
    /\ status d2 = OVERDUE /\ startDate d2 = Some 10.
Proof.
  eexists. eexists.
  split; [reflexivity|].
  destruct (start_on_pending_task fresh_task _ _ "u1" 10 100000
              eq_refl eq_refl eq_refl) as [H1 H2].
  destruct (start_on_pending_task stale_task _ _ "u1" 10 5
              eq_refl eq_refl eq_refl) as [H3 H4].
  split; [exact H1|]. split; [exact (proj1 (H2 eq_refl))|].
  split; [reflexivity|].
  split; [exact H3 | exact (proj1 (H4 eq_refl))].
Defined.

End StartStatus.

(** ** Well-formed tasks *)

Section WellFormed.
Import Task Requests Lifecycle Scenarios Examples.





Lemma find_assignee_none (userId : ObjectId) (d : Task.t) :
  JS.find (fun a => oid_eqb (Assignee.user a) userId) (assignedTo d) = None ->
  ~ In userId (roster d).
Proof.
  unfold JS.find, roster. intros Hf Hin.
  apply in_map_iff in Hin. destruct Hin as [x [Hx Hin]].
  pose proof (find_none _ _ Hf x Hin) as Hn. cbn in Hn.
  unfold oid_eqb in Hn. rewrite Hx in Hn.
  now rewrite String.eqb_refl in Hn.
Qed.





Lemma addAssignee_run (userId : ObjectId) (role : Role) (now : Z)
  (d : Task.t) :
  match JS.find (fun a => oid_eqb (Assignee.user a) userId)
          (assignedTo d) with
  | Some _ =>
      taskSchema.addAssignee userId role now d = (Throw AlreadyAssigned, d)
  | None =>
      exists d1,
        taskSchema.addAssignee userId role now d = (Ok d1, d1)
        /\ assignedTo d1 = assignedTo d ++ [Assignee.mk userId now role]
        /\ timeTracking d1
           = timeTracking d ++ [taskSchema.fresh_tracking userId now]
  end.
Proof.
  unfold taskSchema.addAssignee, bind, this, throw, assign, taskSchema.save.
  destruct (JS.find _ _); [reflexivity|].
  eexists. split; [reflexivity|].
  now rewrite saved_assignedTo, saved_timeTracking.
Qed.

Lemma removeAssignee_run (userId : ObjectId) (now : Z) (d : Task.t) :
  if (List.length (assignedTo d) <=? 1)%nat
  then taskSchema.removeAssignee userId now d = (Throw LastAssignee, d)
  else
    exists d1,
      taskSchema.removeAssignee userId now d = (Ok d1, d1)
      /\ assignedTo d1 = filter (not_user userId) (assignedTo d)
      /\ timeTracking d1 = filter (not_ledger_of userId) (timeTracking d).
Proof.
  unfold taskSchema.removeAssignee, bind, this, throw.
  destruct (Nat.leb_spec (List.length (assignedTo d)) 1) as [Hlen|Hlen].
  - replace (Z.of_nat (List.length (assignedTo d)) <=? 1) with true
      by (symmetry; apply Z.leb_le; lia).
    reflexivity.
  - replace (Z.of_nat (List.length (assignedTo d)) <=? 1) with false
      by (symmetry; apply Z.leb_gt; lia).
    destruct (JS.find (Tracking.of_user userId) (timeTracking d))
      as [e|] eqn:Hf.
    + destruct (Tracking.isActive e) eqn:Ha.
      * pose proof (stopTimeTracking_run userId "Removed from task" now d e
                      Hf Ha) as Hrun.
        cbv zeta in Hrun.
        remember (taskSchema.saved now
                    (set_timeTracking
                       (JS.update_first (Tracking.of_user userId)
                          (taskSchema.close "Removed from task" now)
                          (timeTracking d)) d)) as d0 eqn:Hd0.
        rewrite Hrun. unfold ret, assign, taskSchema.save, bind, this.
        eexists. split; [reflexivity|].
        rewrite saved_assignedTo, saved_timeTracking.
        cbn [assignedTo timeTracking set_assignedTo set_timeTracking].
        rewrite Hd0, saved_assignedTo, saved_timeTracking.
        cbn [assignedTo timeTracking set_assignedTo set_timeTracking].
        split; [reflexivity|].
        apply (filter_update_first_out (Tracking.of_user userId)).
        reflexivity.
      * unfold ret, assign, taskSchema.save, bind, this.
        eexists. split; [reflexivity|].
        now rewrite saved_assignedTo, saved_timeTracking.
    + unfold ret, assign, taskSchema.save, bind, this.
      eexists. split; [reflexivity|].
      now rewrite saved_assignedTo, saved_timeTracking.
Qed.









End WellFormed.

(** ** The complete action and the completed status *)

Section Completion.
Import Task Requests Lifecycle Scenarios Examples.





Lemma stop_keeps_status (s : TASK_STATUS) (userId : ObjectId)
  (notes : string) (now : Z) (d : Task.t) :
  s = COMPLETED \/ s = CANCELLED \/ s = OVERDUE ->
  status d = s ->
  status (snd (taskSchema.stopTimeTracking userId notes now d)) = s.
Proof.
  intros Hs Hd.
  unfold taskSchema.stopTimeTracking, bind, this, throw, assign,
    taskSchema.save.
  destruct (JS.find _ _) as [e|]; [|exact Hd].
  destruct (Tracking.isActive e); cbn [negb snd]; [|exact Hd].
  apply (saves_fixed_status s [now]); [exact Hs | exact Hd].
Qed.

Lemma completing_loop_status (now : Z) (indices : list nat) (d : Task.t) :
  status d = COMPLETED ->
  status
    (snd (taskSchema.for_of_timeTracking indices
            (fun entry =>
               if Tracking.isActive entry
               then bind (taskSchema.stopTimeTracking (Tracking.user entry)
                            "Task completed" now) (fun _ => ret tt)
               else ret tt) d))
  = COMPLETED.
Proof.
  revert d. induction indices as [|i indices IH]; intros d Hd; [exact Hd|].
  cbn [taskSchema.for_of_timeTracking]. unfold bind at 1, this at 1.
  destruct (nth_error (timeTracking d) i) as [entry|]; [|exact Hd].
  unfold bind at 1.
  destruct (Tracking.isActive entry).
  - unfold bind at 1.
    pose proof (stop_keeps_status COMPLETED (Tracking.user entry)
                  "Task completed" now d (or_introl eq_refl) Hd) as Hstop.
    destruct (taskSchema.stopTimeTracking (Tracking.user entry)
                "Task completed" now d) as [[r|err] d1];
      cbn [snd] in Hstop |- *.
    + unfold ret at 1. now apply IH.
    + exact Hstop.
  - unfold ret at 1. now apply IH.
Qed.

(** X7.  Completed is final: whatever request is made against a completed
    task, and whether it succeeds or throws, the task is still completed
    afterwards; and the complete action leaves any task completed. *)
Theorem completed_is_final (cs : list Call) (d : Task.t) :
  (status d = COMPLETED -> status (after_all cs d) = COMPLETED)
  /\ (forall userId now,
        status (after_all (MarkAsCompleted userId now :: cs) d) = COMPLETED).
Proof.
  assert (Hcompl : forall x u now,
             status (snd (taskSchema.markAsCompleted u now x)) = COMPLETED).
  { intros x u now. unfold taskSchema.markAsCompleted.
    unfold bind at 1 2 3 4 5 6, assign, this.
    set (d0 := set_progress _ _).
    pose proof (completing_loop_status now
                  (seq 0 (List.length (timeTracking d0))) d0 eq_refl)
      as Hloop.
    unfold bind at 1.
    destruct (taskSchema.for_of_timeTracking _ _ d0) as [[r|err] d1];
      cbn [snd] in Hloop |- *; [|exact Hloop].
    unfold taskSchema.save, bind, assign, this. cbn [snd].
    apply (saves_fixed_status COMPLETED [now]); auto. }
  assert (Hstep : forall c x, status x = COMPLETED ->
                              status (after x c) = COMPLETED).
  { intros c x Hx. unfold after.
    destruct c as [u now | u notes now | u now | u role now | u now
                  | pct phase u now]; cbn [method].
    - destruct (taskSchema.startTimeTracking u now x)
        as [[r|err] d1] eqn:Hrun; cbn [snd].
      + rewrite (started_document _ _ _ _ _ Hrun), Hx. cbn [status_eqb].
        cbv zeta.
        apply (saves_fixed_status COMPLETED [now]); auto.
      + now rewrite (startTimeTracking_throw _ _ _ _ _ Hrun).
    - apply stop_keeps_status; auto.
    - apply Hcompl.
    - pose proof (addAssignee_run u role now x) as Hrun.
      unfold taskSchema.addAssignee, bind, this, throw, assign,
        taskSchema.save in *.
      destruct (JS.find _ _); cbn [snd]; [exact Hx|].
      apply (saves_fixed_status COMPLETED [now]); auto.
    - unfold taskSchema.removeAssignee, bind, this, throw.
      destruct (Z.of_nat (List.length (assignedTo x)) <=? 1);
        cbn [snd]; [exact Hx|].
      destruct (JS.find (Tracking.of_user u) (timeTracking x)) as [e|] eqn:Hf.
      + destruct (Tracking.isActive e) eqn:Ha.
        * rewrite (stopTimeTracking_run u "Removed from task" now x e Hf Ha).
          unfold ret, assign, taskSchema.save, bind, this. cbn [snd].
          apply (saves_fixed_status COMPLETED [now]); auto.
          cbn [status set_timeTracking set_assignedTo].
          apply (saves_fixed_status COMPLETED [now]); auto.
        * unfold ret, assign, taskSchema.save, bind, this. cbn [snd].
          apply (saves_fixed_status COMPLETED [now]); auto.
      + unfold ret, assign, taskSchema.save, bind, this. cbn [snd].
        apply (saves_fixed_status COMPLETED [now]); auto.
    - unfold taskMethods.updateProgress, bind, this, assign, ret,
        taskSchema.save.
      destruct phase; cbn [snd];
        apply (saves_fixed_status COMPLETED [now]); auto. }
  assert (Hall : forall l x, status x = COMPLETED ->
                             status (after_all l x) = COMPLETED).
  { unfold after_all. induction l as [|c l IH]; intros x Hx; [exact Hx|].
    simpl. apply IH, Hstep, Hx. }
  split; [apply Hall|].
  intros userId now. unfold after_all. simpl. apply Hall.
  unfold after. cbn [method]. apply Hcompl.
Qed.

Lemma completed_is_final_witness :
  status done_task = COMPLETED
  /\ status (after_all busy_day done_task) = COMPLETED
  /\ status (after_all (MarkAsCompleted "u1" 5 :: busy_day) fresh_task)
     = COMPLETED.
Proof.
  split; [reflexivity|]. split.
  - exact (proj1 (completed_is_final busy_day done_task) eq_refl).
  - exact (proj2 (completed_is_final busy_day fresh_task) "u1"%string 5).
Defined.

End Completion.

(** ** Adding and removing assignees, and progress updates *)

Section RosterRoundTrip.
Import Task Requests Lifecycle ScoringRules Scenarios Examples.

Lemma filter_all {A : Type} (p : A -> bool) (l : list A) :
  (forall x, In x l -> p x = true) -> filter p l = l.
Proof.
  induction l as [|x l IH]; simpl; intros H; [reflexivity|].
  rewrite (H x (or_introl eq_refl)). f_equal. apply IH.
  intros y Hy. apply H. now right.
Qed.

(** X8.  [addAssignee] throws the already-assigned error, changing nothing, for
    a user who is on the roster.  For any other user of a well-formed task
    it succeeds, appending the user to the roster with the given role and a
    zeroed idle entry to the ledger; and a [removeAssignee] of the same
    user right after it succeeds and restores both the roster and the
    ledger. *)
Theorem addAssignee_then_removeAssignee (d : Task.t) (userId : ObjectId)
  (role : Role) (t1 t2 : Z) :
  well_formed d ->
  (In userId (roster d) ->
   taskSchema.addAssignee userId role t1 d = (Throw AlreadyAssigned, d))
  /\ (~ In userId (roster d) ->
      exists d1 d2,
        taskSchema.addAssignee userId role t1 d = (Ok d1, d1)
        /\ assignedTo d1 = assignedTo d ++ [Assignee.mk userId t1 role]
        /\ timeTracking d1
           = timeTracking d ++ [Tracking.mk userId 0 [] false None (Some t1)]
        /\ taskSchema.removeAssignee userId t2 d1 = (Ok d2, d2)
        /\ assignedTo d2 = assignedTo d
        /\ timeTracking d2 = timeTracking d).
Proof.
  intros [Hne [Hr [Hl Hincl]]].
  pose proof (addAssignee_run userId role t1 d) as Hadd.
  split.
  - intros Hin.
    destruct (JS.find (fun a => oid_eqb (Assignee.user a) userId)
                (assignedTo d)) eqn:Hf; [exact Hadd|].
    exfalso. exact (find_assignee_none _ _ Hf Hin).
  - intros Hnew.
    destruct (JS.find (fun a => oid_eqb (Assignee.user a) userId)
                (assignedTo d)) as [a|] eqn:Hf.
    + exfalso. apply Hnew. apply find_satisfies in Hf.
      destruct Hf as [Ha Hin]. apply String.eqb_eq in Ha. subst userId.
      unfold roster. now apply in_map.
    + destruct Hadd as [d1 [Hrun [Hros Hled]]].
      pose proof (removeAssignee_run userId t2 d1) as Hrem.
      assert (Hlen : (List.length (assignedTo d1) <=? 1)%nat = false).
      { apply Nat.leb_gt. rewrite Hros, length_app. simpl.
        destruct (assignedTo d); [congruence | simpl; lia]. }
      rewrite Hlen in Hrem. destruct Hrem as [d2 [Hrun2 [Hros2 Hled2]]].
      exists d1, d2. repeat split; auto.
      * rewrite Hros2, Hros, filter_app. simpl.
        unfold not_user at 2. cbn [Assignee.user]. unfold oid_eqb.
        rewrite String.eqb_refl. cbn [negb]. rewrite app_nil_r.
        apply filter_all. intros a Ha. unfold not_user, oid_eqb.
        apply negb_true_iff, String.eqb_neq. intros Heq. apply Hnew.
        rewrite <- Heq. unfold roster. now apply in_map.
      * rewrite Hled2, Hled, filter_app. simpl.
        unfold not_ledger_of at 2, Tracking.of_user.
        cbn [Tracking.user taskSchema.fresh_tracking]. unfold oid_eqb.
        rewrite String.eqb_refl. cbn [negb]. rewrite app_nil_r.
        apply filter_all. intros e He.
        unfold not_ledger_of, Tracking.of_user, oid_eqb.
        apply negb_true_iff, String.eqb_neq. intros Heq. apply Hnew.
        apply Hincl. rewrite <- Heq. unfold ledger_users. now apply in_map.
Qed.

Lemma fresh_task_well_formed : well_formed fresh_task.
Proof.
  unfold well_formed, roster, ledger_users. cbn.
  split; [discriminate|].
  split; [|split].
  - repeat constructor; cbn; intuition discriminate.
  - repeat constructor; cbn; intuition discriminate.
  - intros x [<- | []]. now left.
Qed.

Lemma addAssignee_then_removeAssignee_witness :
  taskSchema.addAssignee "u2" reviewer 10 fresh_task
  = (Throw AlreadyAssigned, fresh_task)
  /\ exists d1 d2,
       taskSchema.addAssignee "u3" reviewer 10 fresh_task = (Ok d1, d1)
       /\ taskSchema.removeAssignee "u3" 20 d1 = (Ok d2, d2)
       /\ assignedTo d2 = assignedTo fresh_task
       /\ timeTracking d2 = timeTracking fresh_task.
Proof.
  destruct (addAssignee_then_removeAssignee fresh_task "u2" reviewer 10 20
              fresh_task_well_formed) as [Herr _].
  destruct (addAssignee_then_removeAssignee fresh_task "u3" reviewer 10 20
              fresh_task_well_formed) as [_ Hok].
  split.
  - apply Herr. cbn. auto.
  - destruct Hok as [d1 [d2 [H1 [_ [_ [H2 [H3 H4]]]]]]].
    + cbn. intuition discriminate.
    + exists d1, d2. auto.
Defined.




End RosterRoundTrip.


(** ** Overdue tasks and days left *)

Section OverdueQueries.
Import Task Requests Lifecycle Scenarios Examples.

Lemma saved_dueDate (now : Z) (d : Task.t) :
  dueDate (taskSchema.saved now d) = dueDate d.
Proof.
  unfold taskSchema.saved. cbn [dueDate persisted].
  pose proof (proj2 (pre_save_statusHistory_status now d)) as H.
  unfold taskSchema.pre_save_overdue.
  destruct (dueDate (taskSchema.pre_save_statusHistory now d)) eqn:E;
    [|now rewrite E].
  match goal with |- context [if ?c then _ else _] => destruct c end;
    cbn [dueDate set_status]; now rewrite E.
Qed.

(** X10.  On tasks that have a due date, [findOverdueTasks] returns, in
    collection order, exactly the tasks whose [isOverdue] virtual is true
    at the same clock reading; and a task that [isOverdue] reports overdue
    once it has been saved at that time has the status overdue. *)
Theorem findOverdueTasks_is_isOverdue (collection : list Task.t) (now : Z) :
  Forall (fun d => dueDate d <> None) collection ->
  taskStatics.findOverdueTasks collection now
  = filter (taskVirtuals.isOverdue now) collection
  /\ (forall d,
        In d collection ->
        taskVirtuals.isOverdue now (taskSchema.saved now d) = true ->
        status (taskSchema.saved now d) = OVERDUE).
Proof.
  intros Hdue. split.
  - unfold taskStatics.findOverdueTasks. apply filter_ext_in.
    intros d Hd. rewrite Forall_forall in Hdue. specialize (Hdue d Hd).
    unfold taskVirtuals.isOverdue.
    destruct (dueDate d) as [due|]; [|congruence]. cbn [JS.toNumber].
    destruct (status_eqb (status d) COMPLETED
              || status_eqb (status d) CANCELLED); cbn;
      [apply andb_false_r | apply andb_true_r].
  - intros d Hd. rewrite Forall_forall in Hdue. specialize (Hdue d Hd).
    unfold taskVirtuals.isOverdue.
    rewrite saved_dueDate, saved_status.
    destruct (dueDate d) as [due|]; [|congruence]. cbn [JS.toNumber].
    destruct (status d); cbn; destruct (due <? now); cbn; congruence.
Qed.

Lemma findOverdueTasks_is_isOverdue_witness :
  Forall (fun d => dueDate d <> None) [late_task; done_task; fresh_task]
  /\ taskStatics.findOverdueTasks [late_task; done_task; fresh_task] 2000
     = [late_task]
  /\ filter (taskVirtuals.isOverdue 2000) [late_task; done_task; fresh_task]
     = [late_task].
Proof.
  assert (H : Forall (fun d => dueDate d <> None)
                [late_task; done_task; fresh_task])
    by (repeat constructor; discriminate).
  split; [exact H|].
  destruct (findOverdueTasks_is_isOverdue _ 2000 H) as [Heq _].
  split; [reflexivity|]. rewrite <- Heq. reflexivity.
Defined.

(** X11.  [daysUntilDue] counts the days left, a started day counting as a
    whole one: it is the least [n] with [due <= now + n] days.  So it is
    positive exactly while the due date lies ahead, and a task that is
    overdue has no day left. *)
Theorem daysUntilDue_bounds (d : Task.t) (now due : Z) :
  dueDate d = Some due ->
  let n := taskVirtuals.daysUntilDue now d in
  let day := 1000 * 60 * 60 * 24 in
  (n - 1) * day < due - now <= n * day
  /\ (0 < n <-> now < due)
  /\ (taskVirtuals.isOverdue now d = true -> n <= 0).
Proof.
  intros Hdue n day.
  assert (Hn : n = - ((- (due - now)) / day)).
  { unfold n, taskVirtuals.daysUntilDue, JSMath.Math_ceil_div.
    now rewrite Hdue. }
  assert (Hday : 0 < day) by (unfold day; lia).
  pose proof (Z.mul_div_le (- (due - now)) day Hday) as H1.
  pose proof (Z.mul_succ_div_gt (- (due - now)) day Hday) as H2.
  assert (Hb : (n - 1) * day < due - now <= n * day) by nia.
  split; [exact Hb|]. split.
  - split; intros H; nia.
  - unfold taskVirtuals.isOverdue. rewrite Hdue. cbn [JS.toNumber].
    destruct (status_eqb (status d) COMPLETED
              || status_eqb (status d) CANCELLED); [discriminate|].
    intros H. apply Z.ltb_lt in H. nia.
Qed.

Lemma daysUntilDue_bounds_witness :
  dueDate late_task = Some 1000
  /\ taskVirtuals.daysUntilDue 2000 late_task = 0
  /\ taskVirtuals.daysUntilDue 999 late_task = 1
  /\ taskVirtuals.daysUntilDue (1000 - 86400001) late_task = 2.
Proof.
  pose proof (daysUntilDue_bounds late_task 2000 1000 eq_refl) as H.
  cbv zeta in H. destruct H as [_ [_ Hover]].
  split; [reflexivity|]. split; [|split; reflexivity].
  assert (Hle : taskVirtuals.daysUntilDue 2000 late_task <= 0)
    by (apply Hover; reflexivity).
  reflexivity.
Defined.

End OverdueQueries.

(** ** Creating a task *)

Section Creation.
Import Task Requests Lifecycle Scenarios Examples.

Lemma map_index_users (ids : list ObjectId) (now : Z) (index : nat) :
  map Assignee.user
    (JSMath.map_index
       (fun userId index =>
          Assignee.mk userId now
            (match index with O => primary | S _ => collaborator end))
       index ids)
  = ids.
Proof.
  revert index. induction ids as [|u ids IH]; intros index; simpl;
    [reflexivity|]. now rewrite IH.
Qed.

Lemma existsb_oid (u : ObjectId) (ids : list ObjectId) :
  existsb (oid_eqb u) ids = true <-> In u ids.
Proof.
  rewrite existsb_exists. split.
  - intros [x [Hin Hx]]. apply String.eqb_eq in Hx. now subst.
  - intros Hin. exists u. split; [exact Hin | apply String.eqb_refl].
Qed.

(** Every primary assignee is on the roster; there is none exactly when
    the roster is empty; and it is the first roster entry tagged primary
    when there is one. *)
Lemma primaryAssignee_on_roster (d : Task.t) :
  (taskVirtuals.primaryAssignee d = None <-> assignedTo d = [])
  /\ (forall u, taskVirtuals.primaryAssignee d = Some u -> In u (roster d)).
Proof.
  unfold taskVirtuals.primaryAssignee, roster.
  destruct (JS.find (fun a => role_eqb (Assignee.role a) primary)
              (assignedTo d)) as [a|] eqn:Hf.
  - apply find_satisfies in Hf. destruct Hf as [_ Hin]. split.
    + split; [discriminate|]. intros H. rewrite H in Hin. destruct Hin.
    + intros u [= <-]. now apply in_map.
  - destruct (assignedTo d) as [|first rest]; split.
    + tauto.
    + discriminate.
    + split; discriminate.
    + intros u [= <-]. now left.
Qed.

(** X12.  [createTask] answers 400 for an empty list of assignees, for a list
    that is not a list of distinct active users, and for a negative
    estimate.  Otherwise it answers 201 with a task that is well formed:
    its roster is the list of ids as given, its first id is its primary
    assignee, its ledger is empty; and the task is pending, or already
    overdue when the due date given lies in the past. *)
Theorem createTask_creates_well_formed (activeUsers ids : list ObjectId)
  (me : ObjectId) (dueDate : Z) (startDate : option Z)
  (estimatedHours : option Q) (now : Z) :
  NoDup activeUsers ->
  let response :=
    TaskController.createTask activeUsers ids me dueDate startDate
      estimatedHours now in
  (fst response = HTTP_STATUS.CREATED \/ fst response = HTTP_STATUS.BAD_REQUEST)
  /\ (fst response = HTTP_STATUS.CREATED <->
      ids <> [] /\ NoDup ids /\ incl ids activeUsers
      /\ TaskController.estimate_valid estimatedHours = true)
  /\ (forall d,
        response = (HTTP_STATUS.CREATED, Some d) ->
        well_formed d
        /\ roster d = ids
        /\ taskVirtuals.primaryAssignee d = hd_error ids
        /\ timeTracking d = []
        /\ status d = (if dueDate <? now then OVERDUE else PENDING)
        /\ isNew d = false).
Proof.
  intros Hnd response.
  unfold response, TaskController.createTask.
  destruct ids as [|first rest].
  - cbn [fst]. split; [now right|]. split; [|discriminate].
    split; [discriminate | intros [H _]; congruence].
  - set (ids := first :: rest).
    set (found := filter (fun u => existsb (oid_eqb u) ids) activeUsers).
    assert (Hfound_nd : NoDup found) by now apply NoDup_filter.
    assert (Hfound_in : incl found ids).
    { intros u Hu. apply filter_In in Hu. now apply existsb_oid. }
    destruct (Nat.eqb_spec (List.length found) (List.length ids))
      as [Hlen|Hlen]; cbn [negb].
    + assert (Hids_nd : NoDup ids).
      { apply (@NoDup_incl_NoDup _ found ids Hfound_nd);
          [lia | exact Hfound_in]. }
      assert (Hids_in : incl ids activeUsers).
      { intros u Hu.
        assert (Hu' : In u found).
        { apply (@NoDup_length_incl _ found ids Hfound_nd);
            [lia | exact Hfound_in | exact Hu]. }
        apply filter_In in Hu'. tauto. }
      destruct (TaskController.estimate_valid estimatedHours) eqn:Hest;
        cbn [negb fst].
      * split; [now left|]. split.
        -- split; [|reflexivity]. intros _.
           repeat split; auto. discriminate.
        -- intros d [= <-].
           assert (Hros : roster
                            (taskSchema.saved now
                               (TaskController.new_task ids me dueDate
                                  startDate estimatedHours now)) = ids).
           { unfold roster. rewrite saved_assignedTo.
             apply map_index_users. }
           split; [|split; [exact Hros|split; [|split; [|split]]]].
           ++ unfold well_formed. rewrite Hros. unfold ledger_users.
              rewrite saved_timeTracking, saved_assignedTo.
              cbn [timeTracking TaskController.new_task map].
              split; [|split; [exact Hids_nd|split; [constructor|]]].
              ** unfold ids. cbn. discriminate.
              ** intros x [].
           ++ unfold taskVirtuals.primaryAssignee. rewrite saved_assignedTo.
              reflexivity.
           ++ now rewrite saved_timeTracking.
           ++ rewrite saved_status. cbn.
              now rewrite !andb_true_r.
           ++ reflexivity.
      * split; [now right|]. split; [|discriminate].
        split; [discriminate | intros [_ [_ [_ H]]]; discriminate].
    + cbn [fst]. split; [now right|]. split; [|discriminate].
      split; [discriminate|]. intros [_ [Hids_nd [Hids_in _]]].
      exfalso. apply Hlen. apply Nat.le_antisymm.
      * apply (@NoDup_incl_length _ found ids Hfound_nd Hfound_in).
      * apply (@NoDup_incl_length _ ids found Hids_nd). intros u Hu.
        apply filter_In. split; [now apply Hids_in | now apply existsb_oid].
Qed.

End Creation.

Section CreationExample.
Import Task Requests Lifecycle Scenarios Examples.
Local Open Scope string_scope.

Lemma createTask_creates_well_formed_witness :
  NoDup ["u1"; "u2"; "u3"]
  /\ fst (TaskController.createTask ["u1"; "u2"; "u3"] ["u3"; "u1"] "boss"
            5000 None None 100) = HTTP_STATUS.CREATED
  /\ fst (TaskController.createTask ["u1"; "u2"; "u3"] ["u3"; "u3"] "boss"
            5000 None None 100) = HTTP_STATUS.BAD_REQUEST
  /\ fst (TaskController.createTask ["u1"; "u2"; "u3"] ["u3"; "u9"] "boss"
            5000 None None 100) = HTTP_STATUS.BAD_REQUEST
  /\ exists d,
       TaskController.createTask ["u1"; "u2"; "u3"] ["u3"; "u1"] "boss"
         50 None None 100 = (HTTP_STATUS.CREATED, Some d)
       /\ taskVirtuals.primaryAssignee d = Some "u3"
       /\ status d = OVERDUE.
Proof.
  assert (H : NoDup ["u1"; "u2"; "u3"])
    by (repeat constructor; cbn; intuition discriminate).
  split; [exact H|].
  split; [reflexivity|]. split; [reflexivity|]. split; [reflexivity|].
  eexists. split; [reflexivity|].
  destruct (createTask_creates_well_formed
              ["u1"; "u2"; "u3"] ["u3"; "u1"] "boss" 50 None None 100 H)
    as [_ [_ Hd]].
  destruct (Hd _ eq_refl) as [_ [_ [Hp [_ [Hs _]]]]].
  split; [exact Hp | exact Hs].
Defined.

End CreationExample.

(** ** Task statistics of a user *)

Section TaskStats.
Import Task Requests Lifecycle Scenarios Examples.

Lemma status_name_eqb (a b : TASK_STATUS) :
  String.eqb (status_name a) (status_name b) = status_eqb a b.
Proof. destruct a, b; reflexivity. Qed.

Lemma count_task_count_of (userId : ObjectId) (key : string)
  (stats : JS.object StatusStats.t) (task : Task.t) :
  taskStatics.count_of key (taskStatics.count_task userId stats task)
  = taskStatics.count_of key stats
    + (if String.eqb (status_name (status task)) key then 1 else 0).
Proof.
  unfold taskStatics.count_task, taskStatics.count_of, JS.has.
  cbv zeta. rewrite get_modify.
  destruct (String.eqb (status_name (status task)) key) eqn:Hk.
  - apply String.eqb_eq in Hk. rewrite Hk.
    destruct (JS.get key stats) as [entry|] eqn:Hg.
    + rewrite Hg. reflexivity.
    + rewrite get_define, Hg, String.eqb_refl. reflexivity.
  - destruct (JS.get (status_name (status task)) stats); [lia|].
    rewrite get_define, Hk. destruct (JS.get key stats); lia.
Qed.

Lemma count_task_positive (userId : ObjectId)
  (stats : JS.object StatusStats.t) (task : Task.t) :
  (forall key entry, JS.get key stats = Some entry ->
                     0 < StatusStats.count entry) ->
  forall key entry,
    JS.get key (taskStatics.count_task userId stats task) = Some entry ->
    0 < StatusStats.count entry.
Proof.
  intros Hpos key entry. unfold taskStatics.count_task, JS.has. cbv zeta.
  rewrite get_modify.
  destruct (String.eqb (status_name (status task)) key) eqn:Hk.
  - apply String.eqb_eq in Hk. rewrite Hk.
    destruct (JS.get key stats) as [e0|] eqn:Hg.
    + rewrite Hg. cbn. intros [= <-]. cbn. specialize (Hpos key e0 Hg). lia.
    + rewrite get_define, Hg, String.eqb_refl. cbn. intros [= <-]. cbn. lia.
  - destruct (JS.get (status_name (status task)) stats) eqn:Hg0.
    + apply Hpos.
    + rewrite get_define, Hk.
      destruct (JS.get key stats) eqn:Hg; [|discriminate].
      intros [= <-]. now apply (Hpos key).
Qed.

Lemma fold_count_task (userId : ObjectId) (key : string)
  (tasks : list Task.t) (stats : JS.object StatusStats.t) :
  taskStatics.count_of key
    (fold_left (taskStatics.count_task userId) tasks stats)
  = taskStatics.count_of key stats
    + Z.of_nat
        (List.length
           (filter (fun t => String.eqb (status_name (status t)) key)
              tasks)).
Proof.
  revert stats. induction tasks as [|t tasks IH]; intros stats; simpl;
    [lia|].
  rewrite IH, count_task_count_of.
  destruct (String.eqb (status_name (status t)) key); simpl; lia.
Qed.

Lemma fold_count_task_positive (userId : ObjectId) (tasks : list Task.t)
  (stats : JS.object StatusStats.t) :
  (forall key entry, JS.get key stats = Some entry ->
                     0 < StatusStats.count entry) ->
  forall key entry,
    JS.get key (fold_left (taskStatics.count_task userId) tasks stats)
    = Some entry ->
    0 < StatusStats.count entry.
Proof.
  revert stats. induction tasks as [|t tasks IH]; intros stats Hpos; simpl;
    [exact Hpos|].
  apply IH. now apply count_task_positive.
Qed.

(** X13.  [getTaskStats] counts, under the name of each status, the tasks of
    that status among those the user is assigned to; a status none of
    them has gets no key at all, so every count present is positive. *)
Theorem getTaskStats_counts_by_status (collection : list Task.t)
  (userId : ObjectId) (s : TASK_STATUS) :
  let stats := taskStatics.getTaskStats collection userId in
  let n :=
    Z.of_nat
      (List.length
         (filter (fun t => status_eqb (status t) s)
            (filter (taskSchema.isAssigned userId) collection))) in
  match JS.get (status_name s) stats with
  | Some entry => StatusStats.count entry = n /\ 0 < n
  | None => n = 0
  end.
Proof.
  intros stats n.
  pose proof (fold_count_task userId (status_name s)
                (filter (taskSchema.isAssigned userId) collection) [])
    as Hcount.
  fold (taskStatics.getTaskStats collection userId) in Hcount.
  fold stats in Hcount.
  assert (Hn : Z.of_nat
                 (List.length
                    (filter
                       (fun t => String.eqb (status_name (status t))
                                   (status_name s))
                       (filter (taskSchema.isAssigned userId) collection)))
               = n).
  { unfold n. do 2 f_equal. apply filter_ext. intros t.
    apply status_name_eqb. }
  rewrite Hn in Hcount. unfold taskStatics.count_of in Hcount.
  cbn [JS.get] in Hcount.
  destruct (JS.get (status_name s) stats) as [entry|] eqn:Hg.
  - split; [lia|].
    assert (Hpos : 0 < StatusStats.count entry).
    { apply (fold_count_task_positive userId
               (filter (taskSchema.isAssigned userId) collection) [])
        with (key := status_name s); [|exact Hg].
      intros key e H. discriminate H. }
    lia.
  - lia.
Qed.

End TaskStats.

(** ** More about the task-based ranking *)

Section RankingExtras.
Import Task ScoringRules RankingRules Scenarios Examples.

Lemma insert_keeps_order_of_ties (v : Z) (a : Score.t) (l : list Score.t) :
  scoring v (taskSchema.insert_by_totalScore a l) = scoring v (a :: l).
Proof.
  unfold scoring. induction l as [|b l IH]; [reflexivity|].
  cbn [taskSchema.insert_by_totalScore].
  destruct (Score.totalScore b - Score.totalScore a <=? 0) eqn:Hcmp;
    [reflexivity|].
  apply Z.leb_gt in Hcmp. cbn [filter] in *. rewrite IH.
  destruct (Score.totalScore a =? v) eqn:Ha;
    destruct (Score.totalScore b =? v) eqn:Hb; try reflexivity.
  apply Z.eqb_eq in Ha, Hb. lia.
Qed.

Lemma sort_keeps_order_of_ties (v : Z) (l : list Score.t) :
  scoring v (taskSchema.sort_by_totalScore l) = scoring v l.
Proof.
  induction l as [|a l IH]; [reflexivity|].
  cbn [taskSchema.sort_by_totalScore].
  rewrite insert_keeps_order_of_ties. unfold scoring in *. cbn [filter].
  now rewrite IH.
Qed.

(** X14.  Ties are broken by discovery order: among the ranked employees with
    the same [totalScore], the one whose record was created first (the
    first met when the tasks and their assignees are scanned) is ranked
    first. *)
Theorem ranking_keeps_discovery_order_on_ties (collection : list Task.t)
  (startDate endDate v : Z) :
  scoring v
    (Rankings.allRankings
       (taskSchema.calculateEmployeeOfTheMonth collection startDate endDate))
  = scoring v
      (map taskSchema.finalize
         (filter completed_some
            (JS.values
               (taskSchema.accumulate
                  (filter (taskSchema.in_period startDate endDate)
                     collection))))).
Proof.
  unfold taskSchema.calculateEmployeeOfTheMonth. cbn [Rankings.allRankings].
  now rewrite sort_keeps_order_of_ties, filter_map_finalize.
Qed.

Lemma firstn_sorted_split (n : nat) (l : list Score.t) :
  StronglySorted by_totalScore_desc l ->
  forall a b, In a (firstn n l) -> In b (skipn n l) ->
              Score.totalScore b <= Score.totalScore a.
Proof.
  intros Hs. revert n. induction Hs as [|x l Hl IH Hx]; intros n a b.
  - destruct n; simpl; tauto.
  - destruct n; simpl; [tauto|].
    intros [<- | Ha] Hb.
    + rewrite Forall_forall in Hx. apply Hx.
      rewrite <- (firstn_skipn n l). apply in_or_app. now right.
    + now apply (IH n).
Qed.

(** X15.  The employee of the month has the highest [totalScore] of all ranked
    employees, and there is none exactly when nobody is ranked; the top
    performers are at most five, all ranked, and none of the ranked
    employees left out of them scores more than one of them. *)
Theorem winner_has_highest_score (collection : list Task.t)
  (startDate endDate : Z) :
  let result :=
    taskSchema.calculateEmployeeOfTheMonth collection startDate endDate in
  (Rankings.employeeOfTheMonth result = None <->
   Rankings.allRankings result = [])
  /\ (forall w,
        Rankings.employeeOfTheMonth result = Some w ->
        In w (Rankings.allRankings result)
        /\ forall r, In r (Rankings.allRankings result) ->
                     Score.totalScore r <= Score.totalScore w)
  /\ (List.length (Rankings.topPerformers result) <= 5)%nat
  /\ incl (Rankings.topPerformers result) (Rankings.allRankings result)
  /\ (forall a b,
        In a (Rankings.topPerformers result) ->
        In b (skipn 5 (Rankings.allRankings result)) ->
        Score.totalScore b <= Score.totalScore a).
Proof.
  intros result.
  assert (Hsorted : StronglySorted by_totalScore_desc
                      (Rankings.allRankings result))
    by apply sort_by_totalScore_sorted.
  unfold result, taskSchema.calculateEmployeeOfTheMonth in *.
  cbn [Rankings.allRankings Rankings.employeeOfTheMonth
       Rankings.topPerformers] in *.
  set (rankings := taskSchema.sort_by_totalScore _) in *.
  clearbody rankings.
  split; [|split; [|split; [|split]]].
  - destruct rankings; simpl; split; congruence.
  - intros w Hw. destruct rankings as [|x l]; [discriminate|].
    simpl in Hw. injection Hw as <-.
    split; [now left|].
    intros r [<- | Hr]; [lia|].
    inversion Hsorted as [|? ? _ Hx]; subst.
    rewrite Forall_forall in Hx. exact (Hx r Hr).
  - apply firstn_le_length.
  - intros x Hx. rewrite <- (firstn_skipn 5 rankings).
    apply in_or_app. now left.
  - now apply firstn_sorted_split.
Qed.

Lemma winner_has_highest_score_witness :
  exists w,
    Rankings.employeeOfTheMonth
      (taskSchema.calculateEmployeeOfTheMonth
         [five_percent_task; january_task] 0 january_31) = Some w
    /\ Score.user w = "E"%string
    /\ forall r,
         In r (Rankings.allRankings
                 (taskSchema.calculateEmployeeOfTheMonth
                    [five_percent_task; january_task] 0 january_31)) ->
         Score.totalScore r <= Score.totalScore w.
Proof.
  pose proof (winner_has_highest_score [five_percent_task; january_task]
                0 january_31) as H.
  remember (taskSchema.calculateEmployeeOfTheMonth
              [five_percent_task; january_task] 0 january_31)
    as result eqn:Hresult.
  vm_compute in Hresult. subst result.
  eexists. split; [reflexivity|]. split; [reflexivity|].
  exact (proj2 (proj1 (proj2 H) _ eq_refl)).
Defined.

Lemma score_task_counters (task : Task.t) (userId : ObjectId)
  (score : Score.t) :
  counters_ok score ->
  counters_ok (taskSchema.score_task task userId score)
  /\ Score.tasksCompleted (taskSchema.score_task task userId score)
     = Score.tasksCompleted score
       + (if status_eqb (status task) COMPLETED then 1 else 0).
Proof.
  unfold counters_ok, taskSchema.score_task. intros H.
  destruct (JS.find (Tracking.of_user userId) (timeTracking task));
    destruct (status task); destruct (estimatedHours task);
    destruct (taskSchema.completed_on_time task);
    cbn [status_eqb]; cbv zeta;
    repeat match goal with
           | |- context [if ?c then _ else _] => destruct c
           end;
    cbn; lia.
Qed.

Lemma values_modify (P : Score.t -> Prop) (k : string)
  (f : Score.t -> Score.t) (o : JS.object Score.t) :
  (forall s, P s -> P (f s)) ->
  Forall P (JS.values o) -> Forall P (JS.values (JS.modify k f o)).
Proof.
  unfold JS.values. intros Hf.
  induction o as [|[k0 v0] o IH]; simpl; intros H; [constructor|].
  inversion H; subst.
  destruct (String.eqb k0 k); simpl; constructor; auto.
Qed.

Lemma accumulate_counters (tasks : list Task.t) :
  Forall counters_ok (JS.values (taskSchema.accumulate tasks)).
Proof.
  unfold taskSchema.accumulate.
  assert (H0 : Forall counters_ok (JS.values (@nil (string * Score.t))))
    by constructor.
  revert H0. generalize (@nil (string * Score.t)).
  induction tasks as [|task tasks IH]; simpl; intros o Ho; [exact Ho|].
  apply IH. revert o Ho.
  induction (assignedTo task) as [|a l IHl]; simpl; intros o Ho; [exact Ho|].
  apply IHl. unfold taskSchema.score_assignee.
  apply values_modify.
  - intros s Hs. exact (proj1 (score_task_counters task _ s Hs)).
  - destruct (JS.has (Assignee.user a) o); [exact Ho|].
    unfold JS.define, JS.values. rewrite map_app. apply Forall_app.
    split; [exact Ho|]. repeat constructor; cbn; lia.
Qed.

Lemma round_percent_bounds (a b : Z) :
  0 <= a <= b -> 0 < b ->
  0 <= JS.Math_round (inject_Z a / inject_Z b * 100) <= 100.
Proof.
  intros [Ha Hab] Hb. unfold JS.Math_round.
  assert (Hbq : (0 < inject_Z b)%Q)
    by (change 0%Q with (inject_Z 0); now rewrite <- Zlt_Qlt).
  assert (H0 : (0 <= inject_Z a / inject_Z b)%Q).
  { apply Qle_shift_div_l; [exact Hbq|]. rewrite Qmult_0_l.
    change 0%Q with (inject_Z 0). now rewrite <- Zle_Qle. }
  assert (H1 : (inject_Z a / inject_Z b <= 1)%Q).
  { apply Qle_shift_div_r; [exact Hbq|]. rewrite Qmult_1_l.
    now rewrite <- Zle_Qle. }
  assert (H2 : (0 <= inject_Z a / inject_Z b * 100)%Q)
    by (apply Qmult_le_0_compat; [exact H0 | discriminate]).
  assert (H3 : (inject_Z a / inject_Z b * 100 <= 100)%Q).
  { setoid_replace (100 : Q) with (1 * 100)%Q at 2 by reflexivity.
    apply Qmult_le_compat_r; [exact H1 | discriminate]. }
  split.
  - apply Z.le_trans with (Qfloor (0 + (1 # 2))); [discriminate|].
    apply Qfloor_resp_le.
    apply Qplus_le_compat; [exact H2 | apply Qle_refl].
  - apply Z.le_trans with (Qfloor (100 + (1 # 2))); [|discriminate].
    apply Qfloor_resp_le.
    apply Qplus_le_compat; [exact H3 | apply Qle_refl].
Qed.

(** X16.  Every ranked record is consistent: its on-time and overdue
    completions add up to its completed tasks, of which there is at least
    one, no counter is negative, and the completion rate and the on-time
    rate the ranking pass gives it are percentages between 0 and 100. *)
Theorem ranked_records_are_consistent (collection : list Task.t)
  (startDate endDate : Z) (r : Score.t) :
  In r (Rankings.allRankings
          (taskSchema.calculateEmployeeOfTheMonth collection
             startDate endDate)) ->
  counters_ok r
  /\ 0 < Score.tasksCompleted r
  /\ exists c o,
       Score.completionRate r = Some c /\ 0 <= c <= 100
       /\ Score.onTimeRate r = Some o /\ 0 <= o <= 100.
Proof.
  intros Hr.
  apply (Permutation_in _ (allRankings_perm collection startDate endDate))
    in Hr.
  apply in_map_iff in Hr. destruct Hr as [s [<- Hs]].
  apply filter_In in Hs. destruct Hs as [Hs Hc].
  unfold completed_some in Hc. apply Z.ltb_lt in Hc.
  pose proof (accumulate_counters
                (filter (taskSchema.in_period startDate endDate) collection))
    as Hall.
  rewrite Forall_forall in Hall. specialize (Hall s Hs).
  destruct Hall as [H1 [H2 [H3 [H4 H5]]]].
  split; [repeat split; assumption|]. split; [exact Hc|].
  unfold taskSchema.finalize. cbn [Score.completionRate Score.onTimeRate].
  eexists. eexists. split; [reflexivity|].
  assert (Ht : (0 <? Score.tasksCompleted s + Score.tasksInProgress s) = true)
    by (apply Z.ltb_lt; lia).
  assert (Hc' : (0 <? Score.tasksCompleted s) = true) by now apply Z.ltb_lt.
  rewrite Ht, Hc'. split; [|split; [reflexivity|]].
  - apply round_percent_bounds; lia.
  - apply round_percent_bounds; lia.
Qed.

Lemma ranked_records_are_consistent_witness :
  exists r,
    In r (Rankings.allRankings
            (taskSchema.calculateEmployeeOfTheMonth
               [five_percent_task; january_task] 0 january_31))
    /\ counters_ok r
    /\ Score.completionRate r = Some 100
    /\ Score.onTimeRate r = Some 100.
Proof.
  pose proof (ranked_records_are_consistent
                [five_percent_task; january_task] 0 january_31) as H.
  remember (taskSchema.calculateEmployeeOfTheMonth
              [five_percent_task; january_task] 0 january_31)
    as result eqn:Hresult.
  vm_compute in Hresult. subst result.
  eexists. split; [left; reflexivity|].
  split; [|split; reflexivity].
  refine (proj1 (H _ _)). left. reflexivity.
Defined.










End RankingExtras.

(* ------------------------------------------------------------------ *)
(** * Further properties of the Performance model *)

Section ScoreBounds.
Import Performance performanceSchema PerformanceRules Scenarios Examples.
Local Open Scope Q_scope.

Lemma rate_bounds (a b : Z) (default : Q) :
  (0 <= a <= b)%Z -> 0 <= default <= 100 ->
  0 <= (if (0 <? b)%Z then inject_Z a / inject_Z b * 100 else default)
    <= 100.
Proof.
  intros [Ha Hab] Hd.
  destruct (Z.ltb_spec 0 b) as [Hb|Hb]; [|exact Hd].
  assert (Hbq : 0 < inject_Z b)
    by (change 0 with (inject_Z 0); now rewrite <- Zlt_Qlt).
  assert (H0 : 0 <= inject_Z a / inject_Z b).
  { apply Qle_shift_div_l; [exact Hbq|]. rewrite Qmult_0_l.
    change 0 with (inject_Z 0). now rewrite <- Zle_Qle. }
  assert (H1 : inject_Z a / inject_Z b <= 1).
  { apply Qle_shift_div_r; [exact Hbq|]. rewrite Qmult_1_l.
    now rewrite <- Zle_Qle. }
  split; lra.
Qed.

Lemma sane_rates (p : Performance.t) :
  sane p ->
  0 <= taskCompletionRate p <= 100
  /\ 0 <= attendanceRate p <= 100
  /\ 0 <= onTimeRate p <= 100
  /\ 0 <= salesConversionRate p <= 100.
Proof.
  intros [H1 [H2 [H3 H4]]].
  unfold taskCompletionRate, attendanceRate, onTimeRate,
    salesConversionRate.
  repeat split; apply rate_bounds; try lia; split; discriminate.
Qed.

Lemma round_between (x : Q) (lo hi : Z) :
  inject_Z lo <= x -> x <= inject_Z hi ->
  (lo <= JS.Math_round x <= hi)%Z.
Proof.
  intros Hlo Hhi. unfold JS.Math_round. split.
  - rewrite <- (Qfloor_Z lo). apply Qfloor_resp_le. lra.
  - apply Z.le_trans with (Qfloor (inject_Z hi + (1 # 2))).
    + apply Qfloor_resp_le. lra.
    + assert (H : (Qfloor (inject_Z hi + (1 # 2)) < hi + 1)%Z).
      { rewrite Zlt_Qlt. eapply Qle_lt_trans; [apply Qfloor_le|].
        rewrite inject_Z_plus. change (inject_Z 1) with 1. lra. }
      lia.
Qed.

(** X18.  For a record with sane counters the overall score is a whole number
    between 0 and 100, as the schema requires of it; and without sales
    calls it is at most 75, so the grade is C+ at best. *)
Theorem overallScore_in_range (p : Performance.t) :
  sane p ->
  (0 <= overallScore (calculateOverallScore p) <= 100)%Z
  /\ (salesCalls p = 0%Z ->
      (overallScore (calculateOverallScore p) <= 75)%Z
      /\ (grade_rank (grade (calculateOverallScore p))
          <= grade_rank C_plus)%Z).
Proof.
  intros Hsane.
  destruct (sane_rates p Hsane) as [Ht [Ha [Ho Hs]]].
  pose proof (weighted_score p) as Hw.
  unfold calculateOverallScore. cbn [overallScore grade set_score_grade].
  split.
  - apply round_between; rewrite Hw;
      destruct (0 <? salesCalls p)%Z; unfold inject_Z; lra.
  - intros Hcalls. rewrite Hcalls in Hw. cbn [Z.ltb Z.compare] in Hw.
    assert (H75 : (JS.Math_round (fst (weighted p)) <= 75)%Z).
    { apply (round_between _ 0 75); rewrite Hw; unfold inject_Z; lra. }
    split; [exact H75|].
    unfold grade_of.
    repeat match goal with
           | |- context [(?a <=? ?b)%Z] =>
               destruct (Z.leb_spec a b); try lia
           end; cbn; lia.
Qed.

Lemma overallScore_in_range_witness :
  sane no_sales_record
  /\ (0 <= overallScore (calculateOverallScore no_sales_record) <= 100)%Z
  /\ (overallScore (calculateOverallScore no_sales_record) <= 75)%Z
  /\ (grade_rank (grade (calculateOverallScore no_sales_record))
      <= grade_rank C_plus)%Z.
Proof.
  assert (H : sane no_sales_record) by (unfold sane; cbn; lia).
  split; [exact H|].
  destruct (overallScore_in_range no_sales_record H) as [Hrange Hno].
  split; [exact Hrange|]. exact (Hno eq_refl).
Defined.

(** X19.  A higher overall score never gives a lower grade. *)
Theorem grade_is_monotone (a b : Z) :
  (a <= b)%Z ->
  (grade_rank (grade_of a) <= grade_rank (grade_of b))%Z.
Proof.
  intros Hab. unfold grade_of.
  repeat match goal with
         | |- context [(?x <=? ?y)%Z] =>
             destruct (Z.leb_spec x y); try lia
         end; cbn; lia.
Qed.

Lemma grade_is_monotone_witness :
  (grade_rank (grade_of 74) <= grade_rank (grade_of 75))%Z
  /\ grade_of 74 = C /\ grade_of 75 = C_plus.
Proof.
  split; [apply (grade_is_monotone 74 75); lia|].
  split; reflexivity.
Defined.

End ScoreBounds.
(* ------------------------------------------------------------------ *)
(** * The handlers of TaskController around the time-tracking methods *)

Section Handlers.
Import Task Requests Lifecycle Scenarios Examples.
Import HTTP_STATUS TaskController.












End Handlers.

(* ------------------------------------------------------------------ *)
(** * The working days of a period *)

Section WorkingDays.
Import PerformanceData_controller PerformanceRules Scenarios.

Lemma getDay_range (tz date : Z) : 0 <= getDay tz date < 7.
Proof. unfold getDay. apply Z.mod_pos_bound. lia. Qed.

Lemma getDay_next (tz date : Z) :
  getDay tz (date + ms_per_day) = (getDay tz date + 1) mod 7.
Proof.
  unfold getDay.
  replace (date + ms_per_day + tz) with (date + tz + 1 * ms_per_day) by ring.
  rewrite Z.div_add by (unfold ms_per_day; lia).
  rewrite Z.add_mod_idemp_l by lia. f_equal. lia.
Qed.

Lemma count_days_app (n m : nat) (tz date : Z) :
  count_days (n + m) tz date
  = count_days n tz date
    + count_days m tz (date + Z.of_nat n * ms_per_day).
Proof.
  revert date. induction n as [|n IH]; intros date.
  - cbn [count_days Nat.add Z.of_nat]. now rewrite Z.mul_0_l, Z.add_0_r.
  - cbn [count_days Nat.add]. rewrite IH.
    replace (date + ms_per_day + Z.of_nat n * ms_per_day)
      with (date + Z.of_nat (S n) * ms_per_day) by lia.
    lia.
Qed.

Lemma count_days_bounds (n : nat) (tz date : Z) :
  0 <= count_days n tz date <= Z.of_nat n.
Proof.
  revert date. induction n as [|n IH]; intros date.
  - cbn. lia.
  - cbn [count_days]. specialize (IH (date + ms_per_day)).
    destruct (negb _ && negb _); lia.
Qed.

(** Every seven days in a row have five working days. *)
Lemma count_days_week (tz date : Z) : count_days 7 tz date = 5.
Proof.
  cbn [count_days]. rewrite !getDay_next.
  pose proof (getDay_range tz date) as Hr.
  generalize dependent (getDay tz date). intros g Hr.
  assert (Hg : g = 0 \/ g = 1 \/ g = 2 \/ g = 3 \/ g = 4 \/ g = 5 \/ g = 6)
    by lia.
  destruct Hg as [-> | [-> | [-> | [-> | [-> | [-> | ->]]]]]]; reflexivity.
Qed.

Lemma days_between_empty (startDate endDate : Z) :
  endDate < startDate -> days_between startDate endDate = O.
Proof.
  intros Hlt. unfold days_between.
  assert (H : (endDate - startDate) / ms_per_day < 0)
    by (apply Z.div_lt_upper_bound; unfold ms_per_day; lia).
  lia.
Qed.

Lemma days_between_next (startDate endDate : Z) :
  startDate <= endDate ->
  days_between startDate endDate
  = S (days_between (startDate + ms_per_day) endDate).
Proof.
  intros Hle. unfold days_between.
  replace (endDate - (startDate + ms_per_day))
    with (endDate - startDate + (-1) * ms_per_day) by ring.
  rewrite Z.div_add by (unfold ms_per_day; lia).
  assert (H : 0 <= (endDate - startDate) / ms_per_day)
    by (apply Z.div_pos; unfold ms_per_day; lia).
  lia.
Qed.

(** The loop counts the working days among the days it visits, and it
    has ended once [days_between] iterations are made. *)
Lemma workingDays_loop_count (fuel : nat) (tz currentDate endDate : Z)
  (workingDays : Z) :
  (days_between currentDate endDate <= fuel)%nat ->
  workingDays_loop fuel tz currentDate endDate workingDays
  = workingDays
    + count_days (days_between currentDate endDate) tz currentDate.
Proof.
  revert currentDate workingDays.
  induction fuel as [|fuel IH]; intros currentDate workingDays Hfuel.
  - replace (days_between currentDate endDate) with O by lia.
    cbn. lia.
  - cbn [workingDays_loop].
    destruct (Z.leb_spec currentDate endDate) as [Hle|Hlt].
    + rewrite (days_between_next _ _ Hle) in Hfuel |- *.
      rewrite IH by lia. cbn [count_days].
      destruct (negb _ && negb _); lia.
    + rewrite (days_between_empty _ _ Hlt). cbn. lia.
Qed.

(** X23.  [calculateWorkingDays] returns: the loop has ended after
    [days_between] iterations, and further ones change nothing.  The
    result is at least 0 and at most the number of days visited; it is 0
    when the period is empty, and for a period of one day it is 1 on a
    weekday and 0 on a Saturday or Sunday. *)
Theorem calculateWorkingDays_counts_visited_days (tz startDate endDate : Z) :
  (forall more,
      workingDays_loop (days_between startDate endDate + more) tz
        startDate endDate 0
      = calculateWorkingDays tz startDate endDate)
  /\ 0 <= calculateWorkingDays tz startDate endDate
     <= Z.of_nat (days_between startDate endDate)
  /\ (endDate < startDate -> calculateWorkingDays tz startDate endDate = 0)
  /\ (startDate <= endDate < startDate + ms_per_day ->
      calculateWorkingDays tz startDate endDate
      = if (getDay tz startDate =? 0) || (getDay tz startDate =? 6)
        then 0 else 1).
Proof.
  unfold calculateWorkingDays.
  split; [|split; [|split]].
  - intros more. rewrite !workingDays_loop_count by lia. reflexivity.
  - rewrite workingDays_loop_count by lia. apply count_days_bounds.
  - intros Hlt. now rewrite (days_between_empty _ _ Hlt).
  - intros [Hle Hlt]. rewrite (days_between_next _ _ Hle).
    rewrite (days_between_empty (startDate + ms_per_day) endDate Hlt).
    cbn [workingDays_loop]. destruct (Z.leb_spec startDate endDate); [|lia].
    destruct (getDay tz startDate =? 0), (getDay tz startDate =? 6);
      reflexivity.
Qed.

Lemma calculateWorkingDays_counts_visited_days_witness :
  calculateWorkingDays 0 january_31 january_1 = 0
  /\ calculateWorkingDays 0 january_1 (january_1 + 1000) = 1.
Proof.
  pose proof (calculateWorkingDays_counts_visited_days 0 january_31 january_1)
    as [_ [_ [H1 _]]].
  pose proof (calculateWorkingDays_counts_visited_days 0 january_1
                (january_1 + 1000)) as [_ [_ [_ H2]]].
  split.
  - apply H1. reflexivity.
  - rewrite H2; [reflexivity|]. split; [discriminate | reflexivity].
Defined.

(** X24.  A period that ends a week later has five more working days, whatever
    the time zone and the day of the week it starts on. *)
Theorem calculateWorkingDays_week_later (tz startDate endDate : Z) :
  startDate <= endDate ->
  calculateWorkingDays tz startDate (endDate + 7 * ms_per_day)
  = calculateWorkingDays tz startDate endDate + 5.
Proof.
  intros Hle. unfold calculateWorkingDays.
  rewrite !workingDays_loop_count by lia.
  assert (Hdays : days_between startDate (endDate + 7 * ms_per_day)
                  = (days_between startDate endDate + 7)%nat).
  { unfold days_between.
    replace (endDate + 7 * ms_per_day - startDate)
      with (endDate - startDate + 7 * ms_per_day) by ring.
    rewrite Z.div_add by (unfold ms_per_day; lia).
    assert (H : 0 <= (endDate - startDate) / ms_per_day)
      by (apply Z.div_pos; unfold ms_per_day; lia).
    lia. }
  rewrite Hdays, count_days_app, count_days_week. lia.
Qed.

Lemma calculateWorkingDays_week_later_witness :
  calculateWorkingDays 0 january_1 january_31 = 23
  /\ calculateWorkingDays 0 january_1 (january_31 + 7 * ms_per_day) = 28.
Proof.
  assert (H : calculateWorkingDays 0 january_1 january_31 = 23)
    by (vm_compute; reflexivity).
  split; [exact H|].
  rewrite (calculateWorkingDays_week_later 0 january_1 january_31);
    [now rewrite H | discriminate].
Defined.

End WorkingDays.

(* ------------------------------------------------------------------ *)
(** * Sales calls *)

Section SalesCalls.
Import SalesCall salesCallSchema salesCallStatics Examples.

Lemma count_bounds {A : Type} (p : A -> bool) (l : list A) :
  0 <= Z.of_nat (List.length (filter p l)) <= Z.of_nat (List.length l).
Proof. pose proof (filter_length_le p l). lia. Qed.

(** X25.  What [save] does to a sales call.  The hook leaves the outcome and
    the status alone.  A call whose outcome is deal_closed is stored as a
    closed deal, with the closing date it had, or [now] when it had none;
    its deal status is closed and it counts as successful.  A call with
    another outcome keeps its deal fields.  A follow-up is required
    afterwards exactly when it was required before or the outcome is
    callback_requested or interested.  Saving twice is saving once. *)
Theorem salesCall_save_hook (now later : Z) (c : SalesCall.t) :
  let c1 := saved now c in
  outcome c1 = outcome c
  /\ status c1 = status c
  /\ (outcome_is c deal_closed = true ->
      dealClosed c1 = true
      /\ dealClosedDate c1 = Some (JS.orElse (dealClosedDate c) now)
      /\ dealStatus c1 = deal_is_closed
      /\ isSuccessful c1 = true)
  /\ (outcome_is c deal_closed = false ->
      dealClosed c1 = dealClosed c
      /\ dealClosedDate c1 = dealClosedDate c)
  /\ followUpRequired c1
     = followUpRequired c || outcome_is c callback_requested
       || outcome_is c interested
  /\ saved later c1 = c1.
Proof.
  destruct c as [rep st sched dur [o|] det fu fud fun_ dv dc dcd];
    [destruct o|]; destruct fu, dcd;
    cbv [saved pre_save outcome_is outcome_eqb SalesCall.outcome];
    cbn; repeat split; intros; try discriminate; reflexivity.
Qed.

Lemma salesCall_save_hook_witness :
  outcome_is closing_call deal_closed = true
  /\ dealClosed (saved 20 closing_call) = true
  /\ dealClosedDate (saved 20 closing_call) = Some 20
  /\ saved 30 (saved 20 closing_call) = saved 20 closing_call.
Proof.
  pose proof (salesCall_save_hook 20 30 closing_call) as H.
  cbv zeta in H. destruct H as [_ [_ [H [_ [_ Hagain]]]]].
  destruct (H eq_refl) as [H1 [H2 _]].
  split; [reflexivity|]. split; [exact H1|]. split; [exact H2 | exact Hagain].
Defined.

(** X26.  The statistics of a sales representative: no counter exceeds the
    number of calls, the conversion rate is a percentage between 0 and
    100, it is 100 when every call was successful, and without calls in
    the window everything is 0. *)
Theorem getSalesRepStats_bounds (collection : list SalesCall.t)
  (salesRepId : ObjectId) (startDate endDate : Z) :
  let stats := getSalesRepStats collection salesRepId startDate endDate in
  0 <= SalesRepStats.completedCalls stats <= SalesRepStats.totalCalls stats
  /\ 0 <= SalesRepStats.successfulCalls stats
     <= SalesRepStats.totalCalls stats
  /\ 0 <= SalesRepStats.dealsClosed stats <= SalesRepStats.totalCalls stats
  /\ SalesRepStats.totalCalls stats <= Z.of_nat (List.length collection)
  /\ 0 <= SalesRepStats.conversionRate stats <= 100
  /\ (0 < SalesRepStats.totalCalls stats ->
      SalesRepStats.successfulCalls stats = SalesRepStats.totalCalls stats ->
      SalesRepStats.conversionRate stats = 100)
  /\ (SalesRepStats.totalCalls stats = 0 ->
      SalesRepStats.totalDuration stats = 0
      /\ SalesRepStats.avgCallDuration stats = 0
      /\ SalesRepStats.conversionRate stats = 0).
Proof.
  unfold getSalesRepStats.
  set (calls := filter _ collection).
  cbv zeta. cbn [SalesRepStats.completedCalls SalesRepStats.totalCalls
                   SalesRepStats.successfulCalls SalesRepStats.dealsClosed
                   SalesRepStats.conversionRate SalesRepStats.totalDuration
                   SalesRepStats.avgCallDuration].
  unfold count.
  pose proof (count_bounds is_completed calls) as H1.
  pose proof (count_bounds isSuccessful calls) as H2.
  pose proof (count_bounds dealClosed calls) as H3.
  pose proof (filter_length_le
                (fun c =>
                   oid_eqb (salesRep c) salesRepId
                   && (startDate <=? scheduledDate c)
                   && (scheduledDate c <=? endDate)) collection) as H4.
  fold calls in H4.
  repeat split; try lia.
  - destruct (Z.ltb_spec 0 (Z.of_nat (List.length calls))); [|lia].
    now apply round_percent_bounds.
  - destruct (Z.ltb_spec 0 (Z.of_nat (List.length calls))); [|lia].
    now apply round_percent_bounds.
  - intros Hpos Hall. rewrite Hall.
    destruct (Z.ltb_spec 0 (Z.of_nat (List.length calls))); [|lia].
    unfold JS.Math_round.
    assert (Hq : (inject_Z (Z.of_nat (List.length calls))
                  / inject_Z (Z.of_nat (List.length calls)) * 100 + (1 # 2)
                  == 201 # 2)%Q).
    { assert (Hne : ~ (inject_Z (Z.of_nat (List.length calls)) == 0)%Q).
      { change 0%Q with (inject_Z 0). rewrite inject_Z_injective. lia. }
      unfold Qdiv. rewrite Qmult_inv_r by exact Hne. reflexivity. }
    rewrite Hq. reflexivity.
  - destruct calls; [reflexivity | cbn [List.length] in H; lia].
  - rewrite H. reflexivity.
  - rewrite H. reflexivity.
Qed.

Lemma getSalesRepStats_bounds_witness :
  SalesRepStats.conversionRate (getSalesRepStats call_log "rep" 0 100) = 50
  /\ SalesRepStats.conversionRate (getSalesRepStats call_log "rep" 0 15) = 100
  /\ SalesRepStats.avgCallDuration (getSalesRepStats call_log "rep" 40 50)
     = 0.
Proof.
  pose proof (getSalesRepStats_bounds call_log "rep" 0 15) as H1.
  pose proof (getSalesRepStats_bounds call_log "rep" 40 50) as H2.
  cbv zeta in H1, H2.
  destruct H1 as [_ [_ [_ [_ [_ [H1 _]]]]]].
  destruct H2 as [_ [_ [_ [_ [_ [_ H2]]]]]].
  split; [reflexivity|]. split.
  - apply H1; reflexivity.
  - apply (H2 eq_refl).
Defined.

End SalesCalls.

(* ------------------------------------------------------------------ *)
(** * The data gathered for a Performance record *)

Section Gathering.
Import PerformanceData_controller Scenarios Examples.

Lemma filter_exclusive_length {A : Type} (p q : A -> bool) (l : list A) :
  (forall x, p x = true -> q x = false) ->
  (List.length (filter p l) + List.length (filter q l) <= List.length l)%nat.
Proof.
  intros Hpq. induction l as [|x l IH]; [cbn; lia|].
  cbn [filter]. destruct (p x) eqn:Hp.
  - rewrite (Hpq x Hp). cbn [List.length]. lia.
  - destruct (q x); cbn [List.length]; lia.
Qed.




End Gathering.

(* ------------------------------------------------------------------ *)
(** * The handlers that change the roster and the progress *)

Section RosterHandlers.
Import Task Requests Lifecycle Scenarios Examples.
Import HTTP_STATUS TaskController.








End RosterHandlers.

(* ------------------------------------------------------------------ *)
(** * The progress summary of a project *)

Section ProjectSummary.
Import Task Scenarios Examples taskStatics.

Lemma status_counts (l : list Task.t) :
  (List.length (filter (fun t => status_eqb (status t) COMPLETED) l)
   + List.length (filter (fun t => status_eqb (status t) IN_PROGRESS) l)
   + List.length (filter (fun t => status_eqb (status t) PENDING) l)
   <= List.length l)%nat.
Proof.
  induction l as [|x l IH]; [cbn; lia|].
  cbn [filter]. destruct (status x); cbn [status_eqb List.length]; lia.
Qed.

Lemma trackers_sum (l : list Task.t) (total : Z) :
  let sum :=
    fold_left
      (fun total task =>
         total
         + Z.of_nat
             (List.length (filter Tracking.isActive (timeTracking task))))
      l total in
  total <= sum
  /\ (sum = total <-> findActivelyTrackedTasks l = []).
Proof.
  cbv zeta. revert total. induction l as [|x l IH]; intros total.
  - cbn. split; [lia|tauto].
  - cbn [fold_left]. unfold findActivelyTrackedTasks. cbn [filter].
    destruct (IH (total
                  + Z.of_nat
                      (List.length
                         (filter Tracking.isActive (timeTracking x)))))
      as [Hle Hiff].
    assert (Hx : existsb Tracking.isActive (timeTracking x) = false
                 <-> List.length (filter Tracking.isActive (timeTracking x))
                     = O).
    { clear. induction (timeTracking x) as [|e r IHr]; [cbn; tauto|].
      cbn [existsb filter]. destruct (Tracking.isActive e); cbn; [|exact IHr].
      split; discriminate. }
    destruct (existsb Tracking.isActive (timeTracking x)).
    + split; [lia|]. split; [|discriminate].
      intros Heq. exfalso.
      assert (List.length (filter Tracking.isActive (timeTracking x)) <> O).
      { intros H0. apply Hx in H0. discriminate. }
      lia.
    + rewrite (proj1 Hx eq_refl) in Hle, Hiff |- *. cbn [Z.of_nat] in *.
      rewrite Z.add_0_r in Hle, Hiff |- *. split; [exact Hle | exact Hiff].
Qed.

Lemma percentages_sum (l : list Task.t) (sum : Q) :
  Forall (fun t => (0 <= Progress.percentage (progress t) <= 100)%Q) l ->
  (sum
   <= fold_left (fun sum t => sum + Progress.percentage (progress t)) l sum
   <= sum + 100 * inject_Z (Z.of_nat (List.length l)))%Q.
Proof.
  intros Hall. revert sum.
  induction Hall as [|x l [Hx0 Hx1] Hl IH]; intros sum.
  - cbn [fold_left List.length Z.of_nat]. change (inject_Z 0) with 0%Q.
    split; lra.
  - cbn [fold_left List.length].
    destruct (IH (sum + Progress.percentage (progress x))%Q) as [H0 H1].
    rewrite Nat2Z.inj_succ. unfold Z.succ. rewrite inject_Z_plus.
    change (inject_Z 1) with 1%Q. split; lra.
Qed.

(** X30.  The summary [getProjectProgress] gives: the completed, in-progress
    and pending tasks are different tasks, and so are the overdue and the
    completed ones; the number of active time trackers is 0 exactly when
    [findActivelyTrackedTasks] finds none of the tasks; and when every
    task has a percentage between 0 and 100, as [updateProgress] leaves
    it, the average progress is a whole number between 0 and 100. *)
Theorem getProjectProgress_summary (tasks : list Task.t) (now : Z) :
  let summary := getProjectProgress tasks now in
  ProjectProgress.totalTasks summary = Z.of_nat (List.length tasks)
  /\ ProjectProgress.completedTasks summary
     + ProjectProgress.inProgressTasks summary
     + ProjectProgress.pendingTasks summary
     <= ProjectProgress.totalTasks summary
  /\ 0 <= ProjectProgress.overdueTasks summary
  /\ ProjectProgress.overdueTasks summary
     + ProjectProgress.completedTasks summary
     <= ProjectProgress.totalTasks summary
  /\ 0 <= ProjectProgress.activeTimeTrackers summary
  /\ (ProjectProgress.activeTimeTrackers summary = 0 <->
      findActivelyTrackedTasks tasks = [])
  /\ (Forall (fun t => (0 <= Progress.percentage (progress t) <= 100)%Q)
        tasks ->
      0 <= ProjectProgress.averageProgress summary <= 100).
Proof.
  unfold getProjectProgress. cbv zeta.
  cbn [ProjectProgress.totalTasks ProjectProgress.completedTasks
         ProjectProgress.inProgressTasks ProjectProgress.pendingTasks
         ProjectProgress.overdueTasks ProjectProgress.averageProgress
         ProjectProgress.activeTimeTrackers].
  pose proof (status_counts tasks) as Hstatus.
  pose proof (filter_exclusive_length
                (fun t => status_eqb (status t) COMPLETED)
                (taskVirtuals.isOverdue now) tasks) as Hover.
  pose proof (trackers_sum tasks 0) as [Htr Hnone]. cbv zeta in Htr, Hnone.
  split; [reflexivity|]. split; [lia|]. split; [lia|].
  split.
  { assert (Hex : forall t, status_eqb (status t) COMPLETED = true ->
                            taskVirtuals.isOverdue now t = false).
    { intros t Hc. unfold taskVirtuals.isOverdue. now rewrite Hc. }
    specialize (Hover Hex). lia. }
  split; [exact Htr|]. split; [exact Hnone|].
  intros Hall.
  destruct (Z.ltb_spec 0 (Z.of_nat (List.length tasks))) as [Hpos|]; [|lia].
  destruct (percentages_sum tasks 0 Hall) as [H0 H1].
  assert (Hn : (0 < inject_Z (Z.of_nat (List.length tasks)))%Q)
    by (change 0%Q with (inject_Z 0); now rewrite <- Zlt_Qlt).
  apply round_between.
  - change (inject_Z 0) with 0%Q. apply Qle_shift_div_l; [exact Hn|]. lra.
  - change (inject_Z 100) with 100%Q. apply Qle_shift_div_r; [exact Hn|]. lra.
Qed.

Lemma getProjectProgress_summary_witness :
  Forall (fun t => (0 <= Progress.percentage (progress t) <= 100)%Q)
    [shared_task; five_percent_task; done_task]
  /\ ProjectProgress.averageProgress
       (getProjectProgress [shared_task; five_percent_task; done_task] 2000)
     = 48
  /\ 0 <= ProjectProgress.averageProgress
            (getProjectProgress [shared_task; five_percent_task; done_task]
               2000) <= 100.
Proof.
  assert (H : Forall
                (fun t => (0 <= Progress.percentage (progress t) <= 100)%Q)
                [shared_task; five_percent_task; done_task]).
  { repeat constructor; discriminate. }
  split; [exact H|]. split; [reflexivity|].
  pose proof (getProjectProgress_summary
                [shared_task; five_percent_task; done_task] 2000) as Hs.
  cbv zeta in Hs.
  exact (proj2 (proj2 (proj2 (proj2 (proj2 (proj2 Hs))))) H).
Defined.

End ProjectSummary.
